(** * Image Analysis Agent chat client: session state and turn submission

    A shallow embedding of [apps/Image_Analysis_app.py].  The Streamlit
    script keeps three entries in [st.session_state] ([user_id],
    [session_id], [messages]) and talks to the ADK host through
    [requests.post].  Its two functions, [create_session] and
    [send_message], are rendered here as programs of a small state and
    exception monad over a [world] that holds the session state together
    with a chronological log of the effects performed. *)

From Stdlib Require Import ZArith NArith List Sorted String Ascii Bool Lia.
From Stdlib Require Import Strings.Byte DecimalString DecimalZ.
Import ListNotations.

Local Open Scope string_scope.
Local Open Scope list_scope.

(** ** Python values that cross the HTTP boundary *)

(** [bytes] objects. *)
Definition bytes := list byte.

(** The document model of the [json] module: what [json.dumps] is given
    and what [response.json()] hands back.  A dict is an association list
    read through its first binding of a key.  Numbers are kept integral. *)
#[local] Set Warnings "-register-all".
Inductive json : Type :=
| JNull
| JBool (b : bool)
| JNum (n : Z)
| JStr (s : string)
| JArr (items : list json)
| JObj (fields : list (string * json)).

(** ** Results of Python computations *)

(** The exceptions the two functions can let escape. *)
Inductive exn : Type :=
| ConnectionError   (* [requests.post] got no answer *)
| JSONDecodeError   (* [response.json()] on a body that is not JSON *)
| AttributeError    (* [.get] on a value that is not a dict *)
| TypeError
| KeyError
| IndexError.

Inductive result (A : Type) : Type :=
| Return (a : A)
| Raised (e : exn).
Arguments Return {A} a.
Arguments Raised {A} e.

Definition result_bind {A B} (r : result A) (k : A -> result B) : result B :=
  match r with
  | Return a => k a
  | Raised e => Raised e
  end.

Notation "'try' x := c 'in' k" := (result_bind c (fun x => k))
  (at level 10, x name, c at level 100, k at level 200).

(** ** Dynamic operations on JSON documents *)

Module Py.

(** [bool(v)]. *)
Definition truthy (v : json) : bool :=
  match v with
  | JNull => false
  | JBool b => b
  | JNum n => negb (n =? 0)%Z
  | JStr s => negb (s =? "")
  | JArr [] => false
  | JArr (_ :: _) => true
  | JObj [] => false
  | JObj (_ :: _) => true
  end.

(** [bool(s)] for an optional [str] ([None] or a string). *)
Definition truthy_str (o : option string) : bool :=
  match o with
  | None => false
  | Some s => negb (s =? "")
  end.

(** A value that is a [str] or [None], as a document. *)
Definition of_str_or_none (o : option string) : json :=
  match o with
  | None => JNull
  | Some s => JStr s
  end.

(** [v == s] for a [str] literal [s]. *)
Definition eq_str (v : json) (s : string) : bool :=
  match v with
  | JStr s' => (s' =? s)
  | _ => false
  end.

Fixpoint assoc (k : string) (fields : list (string * json)) : option json :=
  match fields with
  | [] => None
  | (k', v) :: rest => if (k' =? k) then Some v else assoc k rest
  end.

(** [v.get(k, default)]. *)
Definition get (v : json) (k : string) (default : json) : result json :=
  match v with
  | JObj fields =>
      Return (match assoc k fields with Some x => x | None => default end)
  | _ => Raised AttributeError
  end.

(** [v[0]]. *)
Definition first (v : json) : result json :=
  match v with
  | JArr (x :: _) => Return x
  | JArr [] => Raised IndexError
  | JStr (String c _) => Return (JStr (String c ""))
  | JStr "" => Raised IndexError
  | JObj _ => Raised KeyError
  | _ => Raised TypeError
  end.

(** [sub in s] for strings. *)
Definition substring_of (sub s : string) : bool :=
  match String.index 0 sub s with
  | Some _ => true
  | None => false
  end.

(** [k in v] for a [str] literal [k]. *)
Definition contains (v : json) (k : string) : result bool :=
  match v with
  | JObj fields =>
      Return (match assoc k fields with Some _ => true | None => false end)
  | JArr items => Return (existsb (fun x => eq_str x k) items)
  | JStr s => Return (substring_of k s)
  | _ => Raised TypeError
  end.

(** [v[k]] for a [str] literal [k]. *)
Definition item (v : json) (k : string) : result json :=
  match v with
  | JObj fields =>
      match assoc k fields with
      | Some x => Return x
      | None => Raised KeyError
      end
  | _ => Raised TypeError
  end.

Fixpoint chars (s : string) : list json :=
  match s with
  | "" => []
  | String c s' => JStr (String c "") :: chars s'
  end.

(** The items a [for] loop over [v] visits. *)
Definition iter (v : json) : result (list json) :=
  match v with
  | JArr items => Return items
  | JObj fields => Return (map (fun kv => JStr (fst kv)) fields)
  | JStr s => Return (chars s)
  | _ => Raised TypeError
  end.

(** Replace the value bound to [k] by its image under [f]. *)
Fixpoint update (k : string) (f : json -> json)
         (fields : list (string * json)) : list (string * json) :=
  match fields with
  | [] => []
  | (k', v) :: rest =>
      if (k' =? k) then (k', f v) :: rest else (k', v) :: update k f rest
  end.

(** [str(n)] for an [int]. *)
Definition str_int (n : Z) : string := NilZero.string_of_int (Z.to_int n).

End Py.

(** ** The client state and its environment *)

(** A Streamlit [UploadedFile]: [read()] returns all of [file_bytes]. *)
Record uploaded_file : Type := {
  file_name : string;
  file_type : string;
  file_bytes : bytes
}.

Definition read (f : uploaded_file) : bytes := file_bytes f.

(** The two shapes of dict stored in [st.session_state.messages]:
    [{"role": "user", "content": .., "image_bytes": ..}] and
    [{"role": "assistant", "content": ..}]. *)
Inductive turn : Type :=
| UserTurn (content : string) (image_bytes : option bytes)
| AssistantTurn (content : json).

Definition role (t : turn) : string :=
  match t with
  | UserTurn _ _ => "user"
  | AssistantTurn _ => "assistant"
  end.

(** The arguments of one [requests.post] call; [data] is the document
    given to [json.dumps]. *)
Record request : Type := {
  url : string;
  headers : list (string * string);
  data : json
}.

(** What the client reads from a [requests.Response]; [json_body] is
    [None] when [response.json()] raises. *)
Record response : Type := {
  status_code : Z;
  text : string;
  json_body : option json
}.

(** The effects of the script, in the order they happen. *)
Inductive effect : Type :=
| HttpPost (rq : request)
| StError (msg : string)
| SetSessionId (sid : string)
| ResetMessages
| AppendMessage (t : turn).

(** [st.session_state] and the log of effects so far (oldest first). *)
Record world : Type := {
  user_id : string;
  session_id : option string;
  messages : list turn;
  log : list effect
}.

(** What the outside answers during one invocation: the value of
    [int(time.time())] and the host behind [requests.post]. *)
Record env : Type := {
  clock : Z;
  host : request -> result response
}.

(** ** The monad of the script *)

Definition M (A : Type) : Type := env -> world -> result A * world.

Definition ret {A} (a : A) : M A := fun _ w => (Return a, w).

Definition bind {A B} (m : M A) (k : A -> M B) : M B :=
  fun e w =>
    match m e w with
    | (Return a, w') => k a e w'
    | (Raised x, w') => (Raised x, w')
    end.

Definition lift {A} (r : result A) : M A := fun _ w => (r, w).

Notation "x <- c ;; k" := (bind c (fun x => k))
  (at level 61, c at next level, right associativity).
Notation "c ;; k" := (bind c (fun _ => k))
  (at level 61, right associativity).

Definition emit (x : effect) (w : world) : world :=
  {| user_id := user_id w; session_id := session_id w;
     messages := messages w; log := log w ++ [x] |}.

Definition get_user_id : M string := fun _ w => (Return (user_id w), w).

Definition get_session_id : M (option string) :=
  fun _ w => (Return (session_id w), w).

(** [st.session_state.session_id = sid]. *)
Definition assign_session (sid : string) (w : world) : world :=
  emit (SetSessionId sid)
    {| user_id := user_id w; session_id := Some sid;
       messages := messages w; log := log w |}.

(** [st.session_state.messages = []]. *)
Definition clear_messages (w : world) : world :=
  emit ResetMessages
    {| user_id := user_id w; session_id := session_id w;
       messages := []; log := log w |}.

(** [st.session_state.messages.append(t)]. *)
Definition push_message (t : turn) (w : world) : world :=
  emit (AppendMessage t)
    {| user_id := user_id w; session_id := session_id w;
       messages := messages w ++ [t]; log := log w |}.

Definition set_session_id (sid : string) : M unit :=
  fun _ w => (Return tt, assign_session sid w).

Definition reset_messages : M unit :=
  fun _ w => (Return tt, clear_messages w).

Definition messages_append (t : turn) : M unit :=
  fun _ w => (Return tt, push_message t w).

Definition st_error (msg : string) : M unit :=
  fun _ w => (Return tt, emit (StError msg) w).

Definition requests_post (rq : request) : M response :=
  fun e w => (host e rq, emit (HttpPost rq) w).

(** [int(time.time())]. *)
Definition time_time_int : M Z := fun e w => (Return (clock e), w).

(** [response.json()]. *)
Definition response_json (r : response) : M json :=
  lift (match json_body r with
        | Some v => Return v
        | None => Raised JSONDecodeError
        end).

(** ** base64 (RFC 4648, the alphabet of [base64.b64encode]) *)

Module Base64.

Definition alphabet : list ascii :=
  list_ascii_of_string
    "ABCDEFGHIJKLMNOPQRSTUVWXYZabcdefghijklmnopqrstuvwxyz0123456789+/".

Definition pad : ascii := "="%char.

(** The character of a 6-bit value. *)
Definition char_of (i : N) : ascii := nth (N.to_nat i) alphabet pad.

Fixpoint index_in (c : ascii) (l : list ascii) (i : N) : option N :=
  match l with
  | [] => None
  | x :: l' => if Ascii.eqb c x then Some i else index_in c l' (N.succ i)
  end.

(** The 6-bit value of a character, [None] outside the alphabet. *)
Definition value_of (c : ascii) : option N := index_in c alphabet 0%N.

(** The 24-bit group of three octets. *)
Definition group (a b c : N) : N := (a * 65536 + b * 256 + c)%N.

Definition sextet (n : N) (k : N) : N := ((n / 64 ^ k) mod 64)%N.

(** Three octets give four characters; one or two trailing octets are
    zero-filled and the missing characters replaced by the pad. *)
Fixpoint encode (bs : bytes) : list ascii :=
  match bs with
  | [] => []
  | [a] =>
      let n := group (Byte.to_N a) 0 0 in
      [char_of (sextet n 3); char_of (sextet n 2); pad; pad]
  | [a; b] =>
      let n := group (Byte.to_N a) (Byte.to_N b) 0 in
      [char_of (sextet n 3); char_of (sextet n 2); char_of (sextet n 1); pad]
  | a :: b :: c :: rest =>
      let n := group (Byte.to_N a) (Byte.to_N b) (Byte.to_N c) in
      char_of (sextet n 3) :: char_of (sextet n 2)
        :: char_of (sextet n 1) :: char_of (sextet n 0) :: encode rest
  end.

(** [base64.b64encode(data).decode()]: the encoding as a [str]. *)
Definition b64encode (bs : bytes) : string :=
  string_of_list_ascii (encode bs).

Definition octet (n : N) (k : N) : option byte :=
  Byte.of_N ((n / 256 ^ k) mod 256)%N.

Definition bind_opt {A B} (o : option A) (f : A -> option B) : option B :=
  match o with Some a => f a | None => None end.

Definition quad (i0 i1 i2 i3 : N) : N :=
  (i0 * 262144 + i1 * 4096 + i2 * 64 + i3)%N.

(** Strict decoding: groups of four characters, padding only in the last
    group. *)
Fixpoint decode (cs : list ascii) : option bytes :=
  match cs with
  | [] => Some []
  | c0 :: c1 :: c2 :: c3 :: rest =>
      bind_opt (value_of c0) (fun i0 =>
      bind_opt (value_of c1) (fun i1 =>
      if Ascii.eqb c3 pad then
        match rest with
        | [] =>
            if Ascii.eqb c2 pad then
              bind_opt (octet (quad i0 i1 0 0) 2) (fun a => Some [a])
            else
              bind_opt (value_of c2) (fun i2 =>
              let n := quad i0 i1 i2 0 in
              bind_opt (octet n 2) (fun a =>
              bind_opt (octet n 1) (fun b => Some [a; b])))
        | _ :: _ => None
        end
      else
        bind_opt (value_of c2) (fun i2 =>
        bind_opt (value_of c3) (fun i3 =>
        let n := quad i0 i1 i2 i3 in
        bind_opt (octet n 2) (fun a =>
        bind_opt (octet n 1) (fun b =>
        bind_opt (octet n 0) (fun c =>
        bind_opt (decode rest) (fun tl => Some (a :: b :: c :: tl)))))))))
  | _ => None
  end.

(** [base64.b64decode(s)] on a [str]. *)
Definition b64decode (s : string) : option bytes :=
  decode (list_ascii_of_string s).

End Base64.

(** ** The script *)

Definition API_BASE_URL : string := "http://localhost:8000".
Definition APP_NAME : string := "image_agent".

Definition json_headers : list (string * string) :=
  [("Content-Type", "application/json")].

(** [f"session-{int(time.time())}"] at clock reading [now]. *)
Definition session_name (now : Z) : string := "session-" ++ Py.str_int now.

Definition session_url (uid sid : string) : string :=
  API_BASE_URL ++ "/apps/" ++ APP_NAME ++ "/users/" ++ uid
    ++ "/sessions/" ++ sid.

Definition create_session : M bool :=
  now <- time_time_int ;;
  let session_id := session_name now in
  uid <- get_user_id ;;
  response <- requests_post
    {| url := session_url uid session_id;
       headers := json_headers;
       data := JObj [] |} ;;
  if (status_code response =? 200)%Z then
    set_session_id session_id ;;
    reset_messages ;;
    ret true
  else
    st_error ("Failed to create session: " ++ text response) ;;
    ret false.

Definition text_part (message : string) : json :=
  JObj [("text", JStr message)].

Definition inline_data_part (encoded_image : string) : json :=
  JObj [("inlineData",
         JObj [("displayName", JStr "uploaded.jpg");
               ("data", JStr encoded_image);
               ("mimeType", JStr "image/jpeg")])].

(** The dict literal bound to [payload]. *)
Definition new_payload (uid : string) (sid : option string)
           (message : string) : json :=
  JObj [("appName", JStr APP_NAME);
        ("userId", JStr uid);
        ("sessionId", Py.of_str_or_none sid);
        ("newMessage",
         JObj [("role", JStr "user");
               ("parts", JArr [text_part message])]);
        ("streaming", JBool false)].

Definition list_append (x : json) (v : json) : json :=
  match v with
  | JArr items => JArr (items ++ [x])
  | _ => v
  end.

Definition at_key (k : string) (f : json -> json) (v : json) : json :=
  match v with
  | JObj fields => JObj (Py.update k f fields)
  | _ => v
  end.

(** [payload["newMessage"]["parts"].append(part)]. *)
Definition append_part (part : json) (payload : json) : json :=
  at_key "newMessage" (at_key "parts" (list_append part)) payload.

(** The body of the [for event in events] loop, as a function of the
    current value of [assistant_message] ([None] is [JNull]). *)
Definition scan_event (event : json) (assistant_message : json)
  : result json :=
  try content := Py.get event "content" (JObj []) in
  try parts := Py.get content "parts" (JArr []) in
  try role := Py.get content "role" JNull in
  if Py.eq_str role "model" && Py.truthy parts then
    try part0 := Py.first parts in
    try has_text := Py.contains part0 "text" in
    if has_text then Py.item part0 "text" else Return assistant_message
  else Return assistant_message.

Fixpoint scan_events (events : list json) (assistant_message : json)
  : result json :=
  match events with
  | [] => Return assistant_message
  | event :: rest =>
      try assistant_message' := scan_event event assistant_message in
      scan_events rest assistant_message'
  end.

Definition parse_response (events : json) : result json :=
  try items := Py.iter events in
  scan_events items JNull.

Definition send_message (message : string) (ip_file : option uploaded_file)
  : M bool :=
  sid <- get_session_id ;;
  if negb (Py.truthy_str sid) then
    st_error "Please create a session before sending messages." ;;
    ret false
  else
    uid <- get_user_id ;;
    sid <- get_session_id ;;
    let payload := new_payload uid sid message in
    let '(image_bytes, payload) :=
      match ip_file with
      | Some f =>
          let image_bytes := read f in
          let encoded_image := Base64.b64encode image_bytes in
          (Some image_bytes,
           append_part (inline_data_part encoded_image) payload)
      | None => (None, payload)
      end in
    messages_append (UserTurn message image_bytes) ;;
    response <- requests_post
      {| url := API_BASE_URL ++ "/run";
         headers := json_headers;
         data := payload |} ;;
    if negb (status_code response =? 200)%Z then
      st_error ("Agent Error: " ++ text response) ;;
      ret false
    else
      events <- response_json response ;;
      assistant_message <- lift (parse_response events) ;;
      (if Py.truthy assistant_message
       then messages_append (AssistantTurn assistant_message)
       else ret tt) ;;
      ret true.

(** ** Sequences of user actions *)

Inductive op : Type :=
| CreateSession
| SendTurn (message : string) (ip_file : option uploaded_file).

Definition exec_op (e : env) (o : op) (w : world) : result bool * world :=
  match o with
  | CreateSession => create_session e w
  | SendTurn message ip_file => send_message message ip_file e w
  end.

(** The session state survives an action that raised: the next action
    starts from whatever the previous one left. *)
Fixpoint run_ops (script : list (env * op)) (w : world) : world :=
  match script with
  | [] => w
  | (e, o) :: rest => run_ops rest (snd (exec_op e o w))
  end.

(** The state of a freshly loaded page. *)
Definition fresh (uid : string) : world :=
  {| user_id := uid; session_id := None; messages := []; log := [] |}.

(** The requests issued and the session names assigned, read off a log. *)
Fixpoint posts (l : list effect) : list request :=
  match l with
  | [] => []
  | HttpPost rq :: l' => rq :: posts l'
  | _ :: l' => posts l'
  end.

Fixpoint assigned (l : list effect) : list string :=
  match l with
  | [] => []
  | SetSessionId sid :: l' => sid :: assigned l'
  | _ :: l' => assigned l'
  end.

(** ** Descriptions used in the statements *)

(** The request [create_session] issues from [w] at clock reading [now]. *)
Definition session_request (w : world) (now : Z) : request :=
  {| url := session_url (user_id w) (session_name now);
     headers := json_headers;
     data := JObj [] |}.

(** The parts of the outbound message for a text and an optional file. *)
Definition turn_parts (message : string) (ip_file : option uploaded_file)
  : list json :=
  text_part message ::
  match ip_file with
  | Some f => [inline_data_part (Base64.b64encode (file_bytes f))]
  | None => []
  end.

(** The request [send_message] issues from [w]. *)
Definition turn_request (w : world) (message : string)
           (ip_file : option uploaded_file) : request :=
  {| url := API_BASE_URL ++ "/run";
     headers := json_headers;
     data :=
       JObj [("appName", JStr APP_NAME);
             ("userId", JStr (user_id w));
             ("sessionId", Py.of_str_or_none (session_id w));
             ("newMessage",
              JObj [("role", JStr "user");
                    ("parts", JArr (turn_parts message ip_file))]);
             ("streaming", JBool false)] |}.

(** The user's turn as stored in the history. *)
Definition user_turn (message : string) (ip_file : option uploaded_file)
  : turn :=
  UserTurn message (option_map read ip_file).

(** The state when the turn request has just been issued. *)
Definition submitted (w : world) (message : string)
           (ip_file : option uploaded_file) : world :=
  emit (HttpPost (turn_request w message ip_file))
       (push_message (user_turn message ip_file) w).

(** [payload["newMessage"]["parts"]] of an outbound document. *)
Definition payload_parts (payload : json) : result json :=
  try m := Py.item payload "newMessage" in Py.item m "parts".

Definition active (w : world) : bool := Py.truthy_str (session_id w).

(** The events of the host's answer as the interface describes them:
    [{content: {role: string, parts: [{text?: string}, ...]}}]. *)
Record inbound_event : Type := {
  ev_role : string;
  ev_parts : list (option string)
}.

Definition json_of_part (p : option string) : json :=
  match p with
  | Some t => JObj [("text", JStr t)]
  | None => JObj []
  end.

Definition json_of_event (ev : inbound_event) : json :=
  JObj [("content",
         JObj [("role", JStr (ev_role ev));
               ("parts", JArr (map json_of_part (ev_parts ev)))])].

Definition json_of_events (evs : list inbound_event) : json :=
  JArr (map json_of_event evs).

(** An event whose role is "model" and whose parts list is non-empty. *)
Definition model_with_parts (ev : inbound_event) : bool :=
  (ev_role ev =? "model") &&
  match ev_parts ev with [] => false | _ :: _ => true end.

(** The text of the first part of an event, when it has one. *)
Definition first_part_text (ev : inbound_event) : option string :=
  match ev_parts ev with
  | Some t :: _ => Some t
  | _ => None
  end.

(** An event whose role is "model" and whose first part carries text. *)
Definition model_with_text (ev : inbound_event) : bool :=
  (ev_role ev =? "model") &&
  match first_part_text ev with Some _ => true | None => false end.

(** The reply as the specification words it: the first part's text of the
    first model event with non-empty parts. *)
Definition first_reply (evs : list inbound_event) : option string :=
  match find model_with_parts evs with
  | Some ev => first_part_text ev
  | None => None
  end.

(** The first part's text of the last model event whose first part
    carries text. *)
Definition last_reply (evs : list inbound_event) : option string :=
  match find model_with_text (rev evs) with
  | Some ev => first_part_text ev
  | None => None
  end.

(** The assistant turns a reply gives rise to: none for an absent or
    empty text. *)
Definition reply_turns (reply : option string) : list turn :=
  match reply with
  | Some t => if (t =? "") then [] else [AssistantTurn (JStr t)]
  | None => []
  end.

(** The clock readings of the [CreateSession] actions of a script. *)
Fixpoint create_clocks (script : list (env * op)) : list Z :=
  match script with
  | [] => []
  | (e, CreateSession) :: rest => clock e :: create_clocks rest
  | (_, SendTurn _ _) :: rest => create_clocks rest
  end.

(** How many times the history was reset, read off a log. *)
Fixpoint resets (l : list effect) : nat :=
  match l with
  | [] => 0
  | ResetMessages :: l' => S (resets l')
  | _ :: l' => resets l'
  end.

(** ** The page script *)

(** The top level of the file runs once per interaction.  It fills the
    missing entries of [st.session_state], draws the sidebar (where a
    click on the button calls [create_session]), draws the history, and
    under an active session reads the chat input and the uploader and
    calls [send_message]. *)

(** [st.session_state], entry by entry: [None] is a key not yet set. *)
Record page : Type := {
  st_user_id : option string;
  st_session_id : option (option string);
  st_messages : option (list turn);
  st_file_upload_key : option string
}.

(** The state of a browser session that has not run the script yet. *)
Definition blank : page :=
  {| st_user_id := None; st_session_id := None;
     st_messages := None; st_file_upload_key := None |}.

(** The calls that draw the page, in the order of the script. *)
Inductive element : Type :=
| PageConfig                 (* st.set_page_config *)
| Title                      (* st.title *)
| Header                     (* st.header, in the sidebar *)
| Success (msg : string)     (* st.success *)
| StartNewButton             (* st.button, with a session *)
| CreateButton               (* st.button, without one *)
| Divider
| Caption
| Subheader
| ChatMessage (who : string) (* st.chat_message *)
| Write (content : json)     (* st.write *)
| Image (picture : bytes)    (* st.image *)
| ChatInput                  (* st.chat_input *)
| FileUploader (key : string)
| Info.                      (* st.info *)

(** What the widgets and [uuid.uuid4()] give during one run: the text of
    the three possible [uuid4] draws, whether the button drawn in the
    sidebar was clicked, the submitted chat text, the uploaded file. *)
Record inputs : Type := {
  uuid_user : string;
  uuid_key : string;
  uuid_next : string;
  clicked : bool;
  chat_text : option string;
  uploaded : option uploaded_file
}.

(** How a run ends: at the last line, at [st.rerun()], or at an
    exception. *)
Inductive ending : Type :=
| Finished
| Rerun
| Stopped (x : exn).

Record run : Type := {
  ending_of : ending;
  page_of : page;
  log_of : list effect;
  shown : list element
}.

(** Lines 64 to 71: the three entries after the [not in] tests. *)
Definition init_state (i : inputs) (p : page) (l : list effect) : world :=
  {| user_id := match st_user_id p with
                | Some u => u
                | None => "user-" ++ uuid_user i
                end;
     session_id := match st_session_id p with
                   | Some sid => sid
                   | None => None
                   end;
     messages := match st_messages p with
                 | Some ms => ms
                 | None => []
                 end;
     log := l |}.

Definition store (w : world) (key : option string) : page :=
  {| st_user_id := Some (user_id w);
     st_session_id := Some (session_id w);
     st_messages := Some (messages w);
     st_file_upload_key := key |}.

(** The sidebar up to and including its button. *)
Definition sidebar_head (w : world) : list element :=
  match session_id w with
  | Some sid =>
      if negb (sid =? "")
      then [Header; Success ("Session ID: " ++ sid); StartNewButton]
      else [Header; CreateButton]
  | None => [Header; CreateButton]
  end.

(** The [with st.sidebar] block. *)
Definition sidebar (i : inputs) (e : env) (w : world)
  : result unit * world * list element :=
  if clicked i then
    match create_session e w with
    | (Return _, w') => (Return tt, w', sidebar_head w ++ [Divider; Caption])
    | (Raised x, w') => (Raised x, w', sidebar_head w)
    end
  else (Return tt, w, sidebar_head w ++ [Divider; Caption]).

(** The body of the loop over the history. *)
Definition render_turn (t : turn) : list element :=
  match t with
  | UserTurn content image_bytes =>
      ChatMessage (role t) :: Write (JStr content) ::
      match image_bytes with
      | Some (b :: bs) => [Image (b :: bs)]
      | _ => []
      end
  | AssistantTurn content => [ChatMessage (role t); Write content]
  end.

Definition chat_history (ms : list turn) : list element :=
  Subheader :: flat_map render_turn ms.

(** Lines 216 to 230, with the uploader key in force. *)
Definition input_section (i : inputs) (e : env) (w : world) (key : string)
  : ending * world * string * list element :=
  if Py.truthy_str (session_id w) then
    let widgets := [ChatInput; FileUploader key] in
    match chat_text i with
    | Some user_input =>
        if negb (user_input =? "") then
          match send_message user_input (uploaded i) e w with
          | (Return _, w') => (Rerun, w', uuid_next i, widgets)
          | (Raised x, w') => (Stopped x, w', key, widgets)
          end
        else (Finished, w, key, widgets)
    | None => (Finished, w, key, widgets)
    end
  else (Finished, w, key, [Info]).

(** One run of the script from the entries [p], with [l] the effects of
    the earlier runs. *)
Definition script (i : inputs) (e : env) (p : page) (l : list effect) : run :=
  let w0 := init_state i p l in
  match sidebar i e w0 with
  | (Raised x, w1, side) =>
      {| ending_of := Stopped x;
         page_of := store w1 (st_file_upload_key p);
         log_of := log w1;
         shown := PageConfig :: Title :: side |}
  | (Return _, w1, side) =>
      let key := match st_file_upload_key p with
                 | Some k => k
                 | None => uuid_key i
                 end in
      let '(how, w2, key', widgets) := input_section i e w1 key in
      {| ending_of := how;
         page_of := store w2 (Some key');
         log_of := log w2;
         shown := PageConfig :: Title :: side
                    ++ chat_history (messages w1) ++ widgets |}
  end.

(** A browser session: the runs one after the other, each from the
    entries and the effects the one before left. *)
Fixpoint browse (runs : list (inputs * env)) (p : page) (l : list effect)
  : page * list effect :=
  match runs with
  | [] => (p, l)
  | (i, e) :: rest =>
      let r := script i e p l in
      browse rest (page_of r) (log_of r)
  end.


(** ** Shapes of a history *)

(** Every assistant turn comes right after a user turn and its content
    is truthy; [after_user] tells whether the turn before the list was a
    user turn. *)
Fixpoint paired (after_user : bool) (ms : list turn) : bool :=
  match ms with
  | [] => true
  | UserTurn _ _ :: rest => paired true rest
  | AssistantTurn content :: rest =>
      after_user && Py.truthy content && paired false rest
  end.

(** Whether a list of turns, coming after a turn as [after_user] says,
    ends on a user turn. *)
Fixpoint ends_on_user (after_user : bool) (ms : list turn) : bool :=
  match ms with
  | [] => after_user
  | UserTurn _ _ :: rest => ends_on_user true rest
  | AssistantTurn _ :: rest => ends_on_user false rest
  end.

(** The session ids a run from the fresh page can hold. *)
Definition named_session (o : option string) : Prop :=
  o = None \/ exists t : Z, o = Some (session_name t).

(** The error of the guard of [send_message]. *)
Definition no_session_error : string :=
  "Please create a session before sending messages.".

(** An event the scan passes over: a dict whose content is a dict, or
    absent, and whose role is not "model" or whose parts are absent or
    falsy. *)
Definition passed_over (event : json) : bool :=
  match event with
  | JObj fields =>
      match Py.assoc "content" fields with
      | None => true
      | Some (JObj inner) =>
          negb (Py.eq_str (match Py.assoc "role" inner with
                           | Some r => r
                           | None => JNull
                           end) "model")
          || negb (Py.truthy (match Py.assoc "parts" inner with
                              | Some ps => ps
                              | None => JArr []
                              end))
      | Some _ => false
      end
  | _ => false
  end.

(** ** Sample inputs *)

Definition sample_world : world :=
  {| user_id := "user-7";
     session_id := Some "session-1751328000";
     messages := [UserTurn "hi" None; AssistantTurn (JStr "hello")];
     log := [] |}.

Definition sample_file : uploaded_file :=
  {| file_name := "cat.png";
     file_type := "image/png";
     file_bytes := [Byte.x89; Byte.x50; Byte.x4e; Byte.x47] |}.

(** An environment whose host gives the same answer to every request. *)
Definition answering (now : Z) (resp : response) : env :=
  {| clock := now; host := fun _ => Return resp |}.

Definition ok_with (events : json) : response :=
  {| status_code := 200; text := ""; json_body := Some events |}.

Definition server_error : response :=
  {| status_code := 500;
     text := "Internal Server Error";
     json_body := None |}.

(** A model event with a single textual part. *)
Definition model_says (t : string) : inbound_event :=
  {| ev_role := "model"; ev_parts := [Some t] |}.

(** An answer of two model events, each with text. *)
Definition two_replies : list inbound_event :=
  [model_says "Looking at the image."; model_says "A cat on a sofa."].

(** A page load followed by a session, one turn and a new session a
    minute later. *)
Definition sample_script : list (env * op) :=
  [ (answering 1751328000 (ok_with JNull), CreateSession);
    (answering 1751328005 (ok_with (json_of_events [model_says "hello"])),
     SendTurn "hi" None);
    (answering 1751328060 (ok_with JNull), CreateSession) ].

(** An environment whose host cannot be reached. *)
Definition unreachable (now : Z) : env :=
  {| clock := now; host := fun _ => Raised ConnectionError |}.

(** An answer of status 200 whose body is not JSON. *)
Definition ok_html : response :=
  {| status_code := 200; text := "<html></html>"; json_body := None |}.

(** Events of an answer that carry no reply: a user echo without parts,
    an event without content, a tool event whose parts are not even a
    list. *)
Definition silent_events : list json :=
  [ JObj [("content", JObj [("role", JStr "user")])];
    JObj [("author", JStr "image_agent")];
    JObj [("content", JObj [("role", JStr "tool"); ("parts", JNum 7)])] ].

(** A session is created and the host then refuses a turn. *)
Definition refused_script : list (env * op) :=
  [ (answering 1751328000 (ok_with JNull), CreateSession);
    (answering 1751328005 server_error, SendTurn "hi" None) ].

(** The entries of a page with a session and one exchange, and the
    inputs of a run in which a text is submitted with a file. *)
Definition sample_page : page := store sample_world (Some "key-1").

Definition submitting (m : string) (f : option uploaded_file) : inputs :=
  {| uuid_user := "u-0"; uuid_key := "key-0"; uuid_next := "key-2";
     clicked := false; chat_text := Some m; uploaded := f |}.

Definition clicking : inputs :=
  {| uuid_user := "u-0"; uuid_key := "key-0"; uuid_next := "key-2";
     clicked := true; chat_text := None; uploaded := None |}.

(** An uploaded file of zero bytes. *)
Definition empty_file : uploaded_file :=
  {| file_name := "blank.png"; file_type := "image/png"; file_bytes := [] |}.

(** ** Properties of base64 *)

Module Base64Facts.
Import Base64.

(** Goals about quotients and remainders by constant powers of 64 and
    256. *)
Ltac divmod_lia :=
  cbv [sextet quad group octet] in *;
  change (64 ^ 0)%N with 1%N in *; change (64 ^ 1)%N with 64%N in *;
  change (64 ^ 2)%N with 4096%N in *; change (64 ^ 3)%N with 262144%N in *;
  change (256 ^ 0)%N with 1%N in *; change (256 ^ 1)%N with 256%N in *;
  change (256 ^ 2)%N with 65536%N in *;
  zify; Z.to_euclidean_division_equations; lia.

Lemma sextet_lt (n k : N) : (sextet n k < 64)%N.
Proof. unfold sextet. apply N.mod_lt. discriminate. Qed.

Lemma alphabet_nth (n : nat) :
  (n < 64)%nat ->
  value_of (nth n alphabet pad) = Some (N.of_nat n)
  /\ Ascii.eqb (nth n alphabet pad) pad = false.
Proof.
  intros Hn.
  do 64 (destruct n as [|n]; [split; reflexivity|]).
  lia.
Qed.

Lemma value_of_char_of (i : N) : (i < 64)%N -> value_of (char_of i) = Some i.
Proof.
  intros H. unfold char_of.
  destruct (alphabet_nth (N.to_nat i)) as [Hv _]; [lia|].
  rewrite Hv, N2Nat.id. reflexivity.
Qed.

Lemma char_of_not_pad (i : N) : (i < 64)%N -> Ascii.eqb (char_of i) pad = false.
Proof.
  intros H. unfold char_of.
  destruct (alphabet_nth (N.to_nat i)) as [_ Hp]; [lia|]. exact Hp.
Qed.

Lemma quad_sextets (n : N) :
  (n < 16777216)%N ->
  quad (sextet n 3) (sextet n 2) (sextet n 1) (sextet n 0) = n.
Proof. intros H. divmod_lia. Qed.

Lemma quad_sextets_2 (n : N) :
  (n < 16777216)%N -> (n mod 64 = 0)%N ->
  quad (sextet n 3) (sextet n 2) (sextet n 1) 0 = n.
Proof. intros H H0. divmod_lia. Qed.

Lemma quad_sextets_1 (n : N) :
  (n < 16777216)%N -> (n mod 4096 = 0)%N ->
  quad (sextet n 3) (sextet n 2) 0 0 = n.
Proof. intros H H0. divmod_lia. Qed.

Lemma group_lt (a b c : byte) :
  (group (Byte.to_N a) (Byte.to_N b) (Byte.to_N c) < 16777216)%N.
Proof.
  pose proof (Byte.to_N_bounded a). pose proof (Byte.to_N_bounded b).
  pose proof (Byte.to_N_bounded c). unfold group. lia.
Qed.

Lemma octets_of_group (a b c : N) :
  (a <= 255)%N -> (b <= 255)%N -> (c <= 255)%N ->
  ((group a b c / 256 ^ 2) mod 256 = a
   /\ (group a b c / 256 ^ 1) mod 256 = b
   /\ (group a b c / 256 ^ 0) mod 256 = c)%N.
Proof. intros Ha Hb Hc. repeat split; divmod_lia. Qed.

Lemma octet_group (a b c : byte) :
  let n := group (Byte.to_N a) (Byte.to_N b) (Byte.to_N c) in
  octet n 2 = Some a /\ octet n 1 = Some b /\ octet n 0 = Some c.
Proof.
  intros n. unfold octet, n.
  destruct (octets_of_group (Byte.to_N a) (Byte.to_N b) (Byte.to_N c))
    as (H2 & H1 & H0); try apply Byte.to_N_bounded.
  rewrite H2, H1, H0, !Byte.of_to_N. auto.
Qed.

Lemma decode_group (a b c : byte) (rest : list ascii) :
  let n := group (Byte.to_N a) (Byte.to_N b) (Byte.to_N c) in
  decode (char_of (sextet n 3) :: char_of (sextet n 2)
            :: char_of (sextet n 1) :: char_of (sextet n 0) :: rest)
  = bind_opt (decode rest) (fun tl => Some (a :: b :: c :: tl)).
Proof.
  intros n. cbn [decode].
  rewrite !value_of_char_of by apply sextet_lt. cbn [bind_opt].
  rewrite char_of_not_pad by apply sextet_lt.
  rewrite quad_sextets by apply group_lt.
  destruct (octet_group a b c) as (H2 & H1 & H0). fold n in H2, H1, H0.
  rewrite H2, H1, H0. reflexivity.
Qed.

(** Decoding undoes encoding, on every byte string. *)
Lemma decode_encode (bs : bytes) : decode (encode bs) = Some bs.
Proof.
  assert (H : forall k (l : bytes), (List.length l <= k)%nat ->
                                    decode (encode l) = Some l).
  { induction k as [|k IH]; intros l Hl.
    - destruct l; [reflexivity | simpl in Hl; lia].
    - destruct l as [|a [|b [|c rest]]]; [reflexivity | | | ].
      + cbn [encode decode].
        rewrite !value_of_char_of by apply sextet_lt. cbn [bind_opt].
        rewrite Ascii.eqb_refl.
        rewrite quad_sextets_1;
          [ | apply (group_lt a Byte.x00 Byte.x00)
            | cbn [Byte.to_N]; divmod_lia ].
        destruct (octet_group a Byte.x00 Byte.x00) as (H2 & _).
        cbn [Byte.to_N] in H2. rewrite H2. reflexivity.
      + cbn [encode decode].
        rewrite !value_of_char_of by apply sextet_lt. cbn [bind_opt].
        rewrite Ascii.eqb_refl.
        rewrite char_of_not_pad by apply sextet_lt.
        rewrite quad_sextets_2;
          [ | apply (group_lt a b Byte.x00)
            | cbn [Byte.to_N]; divmod_lia ].
        destruct (octet_group a b Byte.x00) as (H2 & H1 & _).
        cbn [Byte.to_N] in H2, H1. rewrite H2, H1. reflexivity.
      + cbn [encode]. rewrite decode_group.
        rewrite IH by (simpl in Hl; lia). reflexivity. }
  apply (H (List.length bs)). lia.
Qed.

Lemma b64decode_b64encode (bs : bytes) : b64decode (b64encode bs) = Some bs.
Proof.
  unfold b64decode, b64encode.
  rewrite list_ascii_of_string_of_list_ascii. apply decode_encode.
Qed.

(** The test vectors of RFC 4648, section 10. *)
Example rfc4648_vectors :
  b64encode [] = ""
  /\ b64encode [Byte.x66] = "Zg=="
  /\ b64encode [Byte.x66; Byte.x6f] = "Zm8="
  /\ b64encode [Byte.x66; Byte.x6f; Byte.x6f] = "Zm9v"
  /\ b64encode [Byte.x66; Byte.x6f; Byte.x6f; Byte.x62] = "Zm9vYg=="
  /\ b64encode [Byte.x66; Byte.x6f; Byte.x6f; Byte.x62; Byte.x61] = "Zm9vYmE="
  /\ b64encode [Byte.x66; Byte.x6f; Byte.x6f; Byte.x62; Byte.x61; Byte.x72]
     = "Zm9vYmFy".
Proof. repeat split. Qed.

End Base64Facts.

(** ** What one invocation does, case by case *)

Module ClientFacts.

Lemma create_session_eq (e : env) (w : world) :
  create_session e w =
  let rq := session_request w (clock e) in
  let w1 := emit (HttpPost rq) w in
  match host e rq with
  | Return resp =>
      if (status_code resp =? 200)%Z
      then (Return true,
            clear_messages (assign_session (session_name (clock e)) w1))
      else (Return false,
            emit (StError ("Failed to create session: " ++ text resp)) w1)
  | Raised x => (Raised x, w1)
  end.
Proof.
  unfold create_session, bind, time_time_int, get_user_id, requests_post.
  cbn zeta. unfold session_request.
  destruct (host e _) as [resp|x]; [|reflexivity].
  destruct (status_code resp =? 200)%Z; reflexivity.
Qed.

Lemma send_message_inactive (m : string) (f : option uploaded_file)
      (e : env) (w : world) :
  active w = false ->
  send_message m f e w =
  (Return false,
   emit (StError "Please create a session before sending messages.") w).
Proof.
  unfold active, send_message, bind, get_session_id. intros ->. reflexivity.
Qed.

Lemma send_message_active (m : string) (f : option uploaded_file)
      (e : env) (w : world) :
  active w = true ->
  send_message m f e w =
  let w1 := submitted w m f in
  match host e (turn_request w m f) with
  | Return resp =>
      if (status_code resp =? 200)%Z then
        match json_body resp with
        | Some events =>
            match parse_response events with
            | Return a =>
                if Py.truthy a
                then (Return true, push_message (AssistantTurn a) w1)
                else (Return true, w1)
            | Raised x => (Raised x, w1)
            end
        | None => (Raised JSONDecodeError, w1)
        end
      else (Return false, emit (StError ("Agent Error: " ++ text resp)) w1)
  | Raised x => (Raised x, w1)
  end.
Proof.
  unfold active, send_message, bind, get_session_id. intros ->.
  cbn [negb]. unfold get_user_id, submitted, turn_request, user_turn.
  destruct f as [f|]; cbn;
    (destruct (host e _) as [resp|x]; [|reflexivity]);
    (destruct (status_code resp =? 200)%Z; cbn; [|reflexivity]);
    unfold response_json, lift;
    (destruct (json_body resp) as [events|]; [|reflexivity]);
    (destruct (parse_response events) as [a|x]; [|reflexivity]);
    destruct (Py.truthy a); reflexivity.
Qed.


(** *** Reading a log *)

Lemma posts_app (l l' : list effect) : posts (l ++ l') = posts l ++ posts l'.
Proof.
  induction l as [|x l IH]; [reflexivity|].
  destruct x; cbn [app posts]; rewrite IH; reflexivity.
Qed.

Lemma assigned_app (l l' : list effect) :
  assigned (l ++ l') = assigned l ++ assigned l'.
Proof.
  induction l as [|x l IH]; [reflexivity|].
  destruct x; cbn [app assigned]; rewrite IH; reflexivity.
Qed.

Lemma resets_app (l l' : list effect) :
  resets (l ++ l') = (resets l + resets l')%nat.
Proof.
  induction l as [|x l IH]; [reflexivity|].
  destruct x; cbn [app resets]; rewrite IH; reflexivity.
Qed.

(** *** Session names *)

Lemma to_int_not_nil (n : Z) :
  Z.to_int n <> Decimal.Pos Decimal.Nil /\ Z.to_int n <> Decimal.Neg Decimal.Nil.
Proof.
  assert (Hn : Z.to_int n = Decimal.norm (Z.to_int n)).
  { rewrite <- (DecimalZ.of_to n) at 1. apply DecimalZ.to_of. }
  rewrite Hn.
  destruct (Z.to_int n) as [d|d]; cbn [Decimal.norm].
  - split; [|discriminate].
    intros H. injection H as H. exact (DecimalFacts.unorm_nonnil d H).
  - destruct (Decimal.nzhead d); split; discriminate.
Qed.

Lemma str_int_inj (a b : Z) : Py.str_int a = Py.str_int b -> a = b.
Proof.
  unfold Py.str_int. intros H.
  apply (f_equal NilZero.int_of_string) in H.
  destruct (to_int_not_nil a) as [Ha1 Ha2].
  destruct (to_int_not_nil b) as [Hb1 Hb2].
  rewrite !NilZero.isi in H by assumption.
  injection H as H. apply DecimalZ.to_int_inj. exact H.
Qed.

Lemma session_name_inj (a b : Z) : session_name a = session_name b -> a = b.
Proof.
  unfold session_name. cbn [append]. intros H.
  injection H as H. apply str_int_inj. exact H.
Qed.

Lemma session_name_nonempty (t : Z) : session_name t <> "".
Proof. unfold session_name. cbn [append]. discriminate. Qed.

Lemma session_name_truthy (t : Z) : Py.truthy_str (Some (session_name t)) = true.
Proof. reflexivity. Qed.

Example session_name_sample :
  session_name 1751328000 = "session-1751328000"
  /\ Py.str_int 0 = "0"
  /\ Py.str_int (-42) = "-42".
Proof. repeat split. Qed.

(** *** Turn submission without a session *)

(** C3. When no session is active ([session_id] is [None], or the empty
    string, which the guard treats alike), [send_message] returns [False],
    leaves the history and the session untouched, adds exactly one effect,
    the error shown to the user, and so issues no request; the host is
    never consulted. *)
Theorem send_without_session
        (m : string) (f : option uploaded_file) (e : env) (w : world) :
  active w = false ->
  fst (send_message m f e w) = Return false
  /\ messages (snd (send_message m f e w)) = messages w
  /\ session_id (snd (send_message m f e w)) = session_id w
  /\ log (snd (send_message m f e w))
     = log w ++ [StError "Please create a session before sending messages."]
  /\ posts (log (snd (send_message m f e w))) = posts (log w)
  /\ forall e' : env, send_message m f e' w = send_message m f e w.
Proof.
  intros H. rewrite (send_message_inactive m f e w H).
  cbn [fst snd emit messages session_id log].
  repeat split.
  - rewrite posts_app. cbn [posts]. apply app_nil_r.
  - intros e'. apply send_message_inactive. exact H.
Qed.

Lemma send_without_session_witness :
  active (fresh "user-7") = false
  /\ fst (send_message "describe this" None
            {| clock := 0; host := fun _ => Raised ConnectionError |}
            (fresh "user-7")) = Return false.
Proof.
  split; [reflexivity|].
  apply (send_without_session "describe this" None
           {| clock := 0; host := fun _ => Raised ConnectionError |}
           (fresh "user-7")).
  reflexivity.
Defined.

(** *** Turn submission refused by the host *)

Lemma send_message_refused
      (m : string) (f : option uploaded_file) (e : env) (w : world)
      (resp : response) :
  active w = true ->
  host e (turn_request w m f) = Return resp ->
  status_code resp <> 200%Z ->
  send_message m f e w
  = (Return false,
     emit (StError ("Agent Error: " ++ text resp)) (submitted w m f)).
Proof.
  intros Ha Hh Hs. rewrite (send_message_active m f e w Ha). cbn zeta.
  rewrite Hh. apply Z.eqb_neq in Hs. rewrite Hs. reflexivity.
Qed.

(** C9. With an active session and an answer whose status is not 200,
    [send_message] returns [False] and the history is the one before the
    call followed by the user's turn: the optimistic append is kept. *)
Theorem failed_send_keeps_user_turn
        (m : string) (f : option uploaded_file) (e : env) (w : world)
        (resp : response) :
  active w = true ->
  host e (turn_request w m f) = Return resp ->
  status_code resp <> 200%Z ->
  fst (send_message m f e w) = Return false
  /\ messages (snd (send_message m f e w)) = messages w ++ [user_turn m f].
Proof.
  intros Ha Hh Hs. rewrite (send_message_refused m f e w resp Ha Hh Hs).
  split; reflexivity.
Qed.

(** *** What every submission with a session does first *)

(** C2. With an active session, the first two effects of [send_message]
    are the append of the user's turn (its text and, when a file is
    attached, its raw bytes) and then the request, the only one issued;
    on an answer whose status is not 200 the history gains the user's turn
    and nothing else; and whatever the host does, the history gains the
    user's turn followed by at most one more turn. *)
Theorem user_turn_appended_before_post
        (m : string) (f : option uploaded_file) (e : env) (w : world) :
  active w = true ->
  (exists rest,
      log (snd (send_message m f e w))
      = log w ++ AppendMessage (user_turn m f)
                 :: HttpPost (turn_request w m f) :: rest
      /\ posts rest = [])
  /\ (forall resp,
         host e (turn_request w m f) = Return resp ->
         status_code resp <> 200%Z ->
         messages (snd (send_message m f e w)) = messages w ++ [user_turn m f])
  /\ (exists ext,
         messages (snd (send_message m f e w))
         = messages w ++ user_turn m f :: ext
         /\ (List.length ext <= 1)%nat)
  /\ (List.length (messages (snd (send_message m f e w)))
      <= List.length (messages w) + 2)%nat.
Proof.
  intros Ha.
  assert (Hlog : forall x, log w ++ [AppendMessage (user_turn m f)]
                           ++ [HttpPost (turn_request w m f)] ++ x
                     = log w ++ AppendMessage (user_turn m f)
                         :: HttpPost (turn_request w m f) :: x)
    by reflexivity.
  split; [|split; [|split]].
  - rewrite (send_message_active m f e w Ha). cbn zeta.
    destruct (host e _) as [resp|x];
      [destruct (status_code resp =? 200)%Z;
       [destruct (json_body resp) as [events|];
        [destruct (parse_response events) as [a|x];
         [destruct (Py.truthy a)|]|]|]|];
      cbn [snd submitted push_message emit log];
      rewrite <- ?app_assoc;
      first [ exists []; split; [apply Hlog | reflexivity]
            | eexists [_]; split; [apply Hlog | reflexivity] ].
  - intros resp Hh Hs.
    rewrite (send_message_refused m f e w resp Ha Hh Hs). reflexivity.
  - rewrite (send_message_active m f e w Ha). cbn zeta.
    destruct (host e _) as [resp|x];
      [destruct (status_code resp =? 200)%Z;
       [destruct (json_body resp) as [events|];
        [destruct (parse_response events) as [a|x];
         [destruct (Py.truthy a)|]|]|]|];
      cbn [snd submitted push_message emit messages];
      rewrite <- ?app_assoc;
      first [ exists []; split; [reflexivity | cbn; lia]
            | eexists [_]; split; [reflexivity | cbn; lia] ].
  - rewrite (send_message_active m f e w Ha). cbn zeta.
    destruct (host e _) as [resp|x];
      [destruct (status_code resp =? 200)%Z;
       [destruct (json_body resp) as [events|];
        [destruct (parse_response events) as [a|x];
         [destruct (Py.truthy a)|]|]|]|];
      cbn [snd submitted push_message emit messages];
      rewrite ?length_app; cbn [List.length]; lia.
Qed.

Lemma user_turn_appended_before_post_witness :
  active sample_world = true
  /\ (List.length
        (messages (snd (send_message "what is this?" (Some sample_file)
                          (answering 1751328060 server_error) sample_world)))
      <= List.length (messages sample_world) + 2)%nat.
Proof.
  split; [reflexivity|].
  apply (user_turn_appended_before_post "what is this?" (Some sample_file)
           (answering 1751328060 server_error) sample_world).
  reflexivity.
Defined.

Lemma failed_send_keeps_user_turn_witness :
  active sample_world = true
  /\ host (answering 1751328060 server_error)
          (turn_request sample_world "what is this?" (Some sample_file))
     = Return server_error
  /\ status_code server_error <> 200%Z
  /\ messages (snd (send_message "what is this?" (Some sample_file)
                      (answering 1751328060 server_error) sample_world))
     = messages sample_world
         ++ [user_turn "what is this?" (Some sample_file)].
Proof.
  split; [reflexivity|]. split; [reflexivity|].
  split; [discriminate|].
  apply (failed_send_keeps_user_turn "what is this?" (Some sample_file)
           (answering 1751328060 server_error) sample_world server_error);
    [reflexivity | reflexivity | discriminate].
Defined.

(** *** Session creation *)

(** C7. When the host answers a session request with a status other than
    200, [create_session] returns [False]; the user id, the stored session
    id and the history are what they were, whatever they were; and the
    effects added are the request and the error that shows the host's
    text. *)
Theorem failed_create_leaves_state
        (e : env) (w : world) (resp : response) :
  host e (session_request w (clock e)) = Return resp ->
  status_code resp <> 200%Z ->
  fst (create_session e w) = Return false
  /\ user_id (snd (create_session e w)) = user_id w
  /\ session_id (snd (create_session e w)) = session_id w
  /\ messages (snd (create_session e w)) = messages w
  /\ log (snd (create_session e w))
     = log w ++ [HttpPost (session_request w (clock e));
                 StError ("Failed to create session: " ++ text resp)].
Proof.
  intros Hh Hs. rewrite create_session_eq. cbn zeta. rewrite Hh.
  apply Z.eqb_neq in Hs. rewrite Hs.
  cbn [fst snd emit user_id session_id messages log].
  rewrite <- app_assoc. repeat split.
Qed.

Lemma failed_create_leaves_state_witness :
  host (answering 1751328060 server_error)
       (session_request sample_world 1751328060) = Return server_error
  /\ status_code server_error <> 200%Z
  /\ session_id (snd (create_session (answering 1751328060 server_error)
                        sample_world))
     = Some "session-1751328000"
  /\ messages (snd (create_session (answering 1751328060 server_error)
                      sample_world))
     = [UserTurn "hi" None; AssistantTurn (JStr "hello")].
Proof.
  split; [reflexivity|]. split; [discriminate|].
  destruct (failed_create_leaves_state (answering 1751328060 server_error)
              sample_world server_error) as (_ & _ & Hs & Hm & _);
    [reflexivity | discriminate |].
  split; [exact Hs | exact Hm].
Defined.

(** C4. When the host answers a session request with status 200,
    [create_session] returns [True]; the stored session id is
    ["session-"] followed by the decimal clock reading, a non-empty
    string; the history is empty; and if the previous session id was named
    at an earlier clock reading, the new id differs from it. *)
Theorem successful_create_resets
        (e : env) (w : world) (resp : response) :
  host e (session_request w (clock e)) = Return resp ->
  status_code resp = 200%Z ->
  fst (create_session e w) = Return true
  /\ session_id (snd (create_session e w))
     = Some ("session-" ++ Py.str_int (clock e))%string
  /\ ("session-" ++ Py.str_int (clock e))%string <> ""
  /\ messages (snd (create_session e w)) = []
  /\ (session_id w = None ->
      session_id (snd (create_session e w)) <> session_id w)
  /\ (forall t : Z,
         session_id w = Some (session_name t) ->
         (t < clock e)%Z ->
         session_id (snd (create_session e w)) <> session_id w).
Proof.
  intros Hh Hs. rewrite create_session_eq. cbn zeta. rewrite Hh, Hs.
  cbn [Z.eqb Pos.eqb fst snd clear_messages assign_session emit
       session_id messages].
  split; [reflexivity|]. split; [reflexivity|].
  split; [apply session_name_nonempty|]. split; [reflexivity|].
  split.
  - intros ->. discriminate.
  - intros t -> Hlt Heq.
    assert (Hn : session_name (clock e) = session_name t) by congruence.
    apply session_name_inj in Hn. lia.
Qed.

Lemma successful_create_resets_witness :
  host (answering 1751328060 (ok_with JNull))
       (session_request sample_world 1751328060) = Return (ok_with JNull)
  /\ status_code (ok_with JNull) = 200%Z
  /\ session_id (snd (create_session (answering 1751328060 (ok_with JNull))
                        sample_world))
     = Some "session-1751328060"
  /\ messages (snd (create_session (answering 1751328060 (ok_with JNull))
                      sample_world)) = [].
Proof.
  split; [reflexivity|]. split; [reflexivity|].
  destruct (successful_create_resets (answering 1751328060 (ok_with JNull))
              sample_world (ok_with JNull)) as (_ & Hs & _ & Hm & _);
    [reflexivity | reflexivity |].
  split; [exact Hs | exact Hm].
Defined.


(** *** The outbound payload *)

Lemma send_message_posts
      (m : string) (f : option uploaded_file) (e : env) (w : world) :
  active w = true ->
  posts (log (snd (send_message m f e w)))
  = posts (log w) ++ [turn_request w m f].
Proof.
  intros Ha. rewrite (send_message_active m f e w Ha). cbn zeta.
  destruct (host e _) as [resp|x];
    [destruct (status_code resp =? 200)%Z;
     [destruct (json_body resp) as [events|];
      [destruct (parse_response events) as [a|x];
       [destruct (Py.truthy a)|]|]|]|];
    cbn [snd submitted push_message emit log];
    rewrite ?posts_app; cbn [posts]; rewrite ?app_nil_r; reflexivity.
Qed.

(** C5. With an active session and an attached file, exactly one request
    is issued; the parts of its message are the text part and one
    inline-data part named "uploaded.jpg" of type "image/jpeg", whatever
    the name and type of the upload; and the data string of that part
    decodes to the bytes of the file. *)
Theorem image_payload_parts
        (m : string) (f : uploaded_file) (e : env) (w : world) :
  active w = true ->
  exists (rq : request) (encoded : string),
    posts (log (snd (send_message m (Some f) e w))) = posts (log w) ++ [rq]
    /\ payload_parts (data rq)
       = Return (JArr [JObj [("text", JStr m)];
                       JObj [("inlineData",
                              JObj [("displayName", JStr "uploaded.jpg");
                                    ("data", JStr encoded);
                                    ("mimeType", JStr "image/jpeg")])]])
    /\ Base64.b64decode encoded = Some (file_bytes f).
Proof.
  intros Ha.
  exists (turn_request w m (Some f)), (Base64.b64encode (file_bytes f)).
  split; [apply send_message_posts; exact Ha|].
  split; [reflexivity|].
  apply Base64Facts.b64decode_b64encode.
Qed.

Lemma image_payload_parts_witness :
  active sample_world = true
  /\ exists (rq : request) (encoded : string),
      posts (log (snd (send_message "what is this?" (Some sample_file)
                         (answering 1751328060 server_error) sample_world)))
      = posts (log sample_world) ++ [rq]
      /\ payload_parts (data rq)
         = Return (JArr [JObj [("text", JStr "what is this?")];
                         JObj [("inlineData",
                                JObj [("displayName", JStr "uploaded.jpg");
                                      ("data", JStr encoded);
                                      ("mimeType", JStr "image/jpeg")])]])
      /\ Base64.b64decode encoded = Some (file_bytes sample_file).
Proof.
  split; [reflexivity|].
  apply (image_payload_parts "what is this?" sample_file
           (answering 1751328060 server_error) sample_world).
  reflexivity.
Defined.

(** C6. With an active session and no file, exactly one request is
    issued and the parts of its message are the text part alone; with or
    without a file, the "streaming" entry of the payload is [False]. *)
Theorem text_only_payload_parts (m : string) (e : env) (w : world) :
  active w = true ->
  (exists rq : request,
      posts (log (snd (send_message m None e w))) = posts (log w) ++ [rq]
      /\ payload_parts (data rq) = Return (JArr [JObj [("text", JStr m)]])
      /\ Py.item (data rq) "streaming" = Return (JBool false))
  /\ (forall f : option uploaded_file,
         exists rq : request,
           posts (log (snd (send_message m f e w))) = posts (log w) ++ [rq]
           /\ Py.item (data rq) "streaming" = Return (JBool false)).
Proof.
  intros Ha. split.
  - exists (turn_request w m None).
    split; [apply send_message_posts; exact Ha|].
    split; reflexivity.
  - intros f. exists (turn_request w m f).
    split; [apply send_message_posts; exact Ha | reflexivity].
Qed.

Lemma text_only_payload_parts_witness :
  active sample_world = true
  /\ exists rq : request,
      posts (log (snd (send_message "hello there" None
                         (answering 1751328060 server_error) sample_world)))
      = posts (log sample_world) ++ [rq]
      /\ payload_parts (data rq)
         = Return (JArr [JObj [("text", JStr "hello there")]])
      /\ Py.item (data rq) "streaming" = Return (JBool false).
Proof.
  split; [reflexivity|].
  apply (text_only_payload_parts "hello there"
           (answering 1751328060 server_error) sample_world).
  reflexivity.
Defined.


(** *** Scanning the events of an answer *)

Lemma find_app {A} (p : A -> bool) (l l' : list A) :
  find p (l ++ l')
  = match find p l with
    | Some y => Some y
    | None => find p l'
    end.
Proof.
  induction l as [|y l IH]; cbn [app find].
  - reflexivity.
  - destruct (p y); [reflexivity | exact IH].
Qed.

Lemma find_none_all {A} (p : A -> bool) (l : list A) :
  Forall (fun x => p x = false) l -> find p l = None.
Proof.
  induction 1 as [|x l Hx _ IH]; cbn [find]; [reflexivity|].
  rewrite Hx. exact IH.
Qed.

Lemma last_reply_cons (ev : inbound_event) (evs : list inbound_event) :
  last_reply (ev :: evs)
  = match last_reply evs with
    | Some t => Some t
    | None => if model_with_text ev then first_part_text ev else None
    end.
Proof.
  unfold last_reply. cbn [rev]. rewrite find_app. cbn [find].
  destruct (find model_with_text (rev evs)) as [y|] eqn:Hf.
  - apply find_some in Hf. destruct Hf as [_ Hy].
    unfold model_with_text in Hy. apply andb_prop in Hy.
    destruct Hy as [_ Hy].
    destruct (first_part_text y); [reflexivity | discriminate].
  - destruct (model_with_text ev); reflexivity.
Qed.

Lemma scan_event_typed (ev : inbound_event) (acc : json) :
  scan_event (json_of_event ev) acc
  = Return (if model_with_text ev
            then Py.of_str_or_none (first_part_text ev)
            else acc).
Proof.
  destruct ev as [r ps].
  unfold scan_event, json_of_event, model_with_text, first_part_text.
  cbn [Py.get Py.assoc String.eqb Ascii.eqb Bool.eqb result_bind
       ev_role ev_parts Py.eq_str].
  destruct (r =? "model"); cbn [andb]; [|reflexivity].
  destruct ps as [|[t|] ps]; reflexivity.
Qed.

Lemma model_with_text_some (ev : inbound_event) :
  model_with_text ev = true -> exists t, first_part_text ev = Some t.
Proof.
  unfold model_with_text. intros H. apply andb_prop in H.
  destruct H as [_ H].
  destruct (first_part_text ev) as [t|]; [exists t; reflexivity | discriminate].
Qed.

Lemma scan_events_typed (evs : list inbound_event) (acc : json) :
  scan_events (map json_of_event evs) acc
  = Return (match last_reply evs with
            | Some t => JStr t
            | None => acc
            end).
Proof.
  revert acc. induction evs as [|ev evs IH]; intros acc; [reflexivity|].
  cbn [map scan_events]. rewrite scan_event_typed. cbn [result_bind].
  rewrite IH, last_reply_cons.
  destruct (last_reply evs) as [t|]; [reflexivity|].
  destruct (model_with_text ev) eqn:Hm; [|reflexivity].
  destruct (model_with_text_some ev Hm) as [t ->]. reflexivity.
Qed.

Lemma parse_response_typed (evs : list inbound_event) :
  parse_response (json_of_events evs)
  = Return (Py.of_str_or_none (last_reply evs)).
Proof.
  unfold parse_response, json_of_events. cbn [Py.iter result_bind].
  rewrite scan_events_typed. destruct (last_reply evs); reflexivity.
Qed.

(** The outcome of a submission the host answers with status 200 and a
    list of events of the documented shape. *)
Lemma send_message_typed
      (m : string) (f : option uploaded_file) (e : env) (w : world)
      (resp : response) (evs : list inbound_event) :
  active w = true ->
  host e (turn_request w m f) = Return resp ->
  status_code resp = 200%Z ->
  json_body resp = Some (json_of_events evs) ->
  fst (send_message m f e w) = Return true
  /\ messages (snd (send_message m f e w))
     = messages w ++ user_turn m f :: reply_turns (last_reply evs).
Proof.
  intros Ha Hh Hs Hj. rewrite (send_message_active m f e w Ha). cbn zeta.
  rewrite Hh, Hs, Hj, parse_response_typed. cbn [Z.eqb Pos.eqb].
  destruct (last_reply evs) as [t|]; cbn [Py.of_str_or_none Py.truthy reply_turns].
  - destruct (t =? ""); cbn [negb fst snd submitted push_message emit messages];
      rewrite <- ?app_assoc; split; reflexivity.
  - split; reflexivity.
Qed.


(** The reply is decided by the last model event whose first part
    carries text: events after it that carry none do not matter, and
    events before it are overridden. *)
Lemma last_reply_at (pre post : list inbound_event) (ev : inbound_event) :
  model_with_text ev = true ->
  Forall (fun x => model_with_text x = false) post ->
  last_reply (pre ++ ev :: post) = first_part_text ev.
Proof.
  intros Hev Hpost. unfold last_reply.
  rewrite rev_app_distr. cbn [rev]. rewrite <- app_assoc, find_app.
  rewrite find_none_all.
  - cbn [app find]. rewrite Hev. reflexivity.
  - apply Forall_forall. intros x Hx. apply in_rev in Hx.
    rewrite Forall_forall in Hpost. apply Hpost. exact Hx.
Qed.

(** C1, as the code has it.  For a submission with an active session
    that the host answers with status 200 and a list of events, the
    history gains the user's turn and then the reply: the text of the
    first part of the LAST event whose role is "model" and whose first
    part carries text, when that text is not empty, and nothing when
    there is no such event or the text is empty.  For the single event
    [{content: {role: "model", parts: [{text: "hello"}]}}] the assistant
    turn's content is "hello". *)
Theorem last_model_text_is_the_reply
        (m : string) (f : option uploaded_file) (e : env) (w : world)
        (resp : response) (evs : list inbound_event) :
  active w = true ->
  host e (turn_request w m f) = Return resp ->
  status_code resp = 200%Z ->
  json_body resp = Some (json_of_events evs) ->
  messages (snd (send_message m f e w))
  = messages w ++ user_turn m f :: reply_turns (last_reply evs)
  /\ (forall pre ev post t,
         evs = pre ++ ev :: post ->
         ev_role ev = "model" ->
         first_part_text ev = Some t ->
         t <> "" ->
         Forall (fun x => model_with_text x = false) post ->
         messages (snd (send_message m f e w))
         = messages w ++ [user_turn m f; AssistantTurn (JStr t)])
  /\ (evs = [model_says "hello"] ->
      messages (snd (send_message m f e w))
      = messages w ++ [user_turn m f; AssistantTurn (JStr "hello")]).
Proof.
  intros Ha Hh Hs Hj.
  destruct (send_message_typed m f e w resp evs Ha Hh Hs Hj) as [_ Hm].
  split; [exact Hm|]. split.
  - intros pre ev post t -> Hr Ht Hne Hpost. rewrite Hm.
    rewrite last_reply_at;
      [ | unfold model_with_text; rewrite Hr, Ht; reflexivity | exact Hpost ].
    rewrite Ht. cbn [reply_turns].
    destruct (String.eqb_spec t ""); [contradiction | reflexivity].
  - intros ->. rewrite Hm. reflexivity.
Qed.

Lemma last_model_text_is_the_reply_witness :
  active sample_world = true
  /\ host (answering 1751328060 (ok_with (json_of_events [model_says "hello"])))
          (turn_request sample_world "what is this?" (Some sample_file))
     = Return (ok_with (json_of_events [model_says "hello"]))
  /\ status_code (ok_with (json_of_events [model_says "hello"])) = 200%Z
  /\ json_body (ok_with (json_of_events [model_says "hello"]))
     = Some (json_of_events [model_says "hello"])
  /\ messages
       (snd (send_message "what is this?" (Some sample_file)
               (answering 1751328060
                  (ok_with (json_of_events [model_says "hello"])))
               sample_world))
     = messages sample_world
         ++ [user_turn "what is this?" (Some sample_file);
             AssistantTurn (JStr "hello")].
Proof.
  split; [reflexivity|]. split; [reflexivity|].
  split; [reflexivity|]. split; [reflexivity|].
  destruct (last_model_text_is_the_reply "what is this?" (Some sample_file)
              (answering 1751328060
                 (ok_with (json_of_events [model_says "hello"])))
              sample_world
              (ok_with (json_of_events [model_says "hello"]))
              [model_says "hello"]) as (_ & _ & H);
    [reflexivity | reflexivity | reflexivity | reflexivity |].
  apply H. reflexivity.
Defined.

(** C1, as stated, fails: with two model events that both carry text,
    the first such event would make the reply "Looking at the image.",
    and the code appends the text of the second. *)
Lemma first_model_event_is_overridden :
  active sample_world = true
  /\ first_reply two_replies = Some "Looking at the image."
  /\ messages
       (snd (send_message "what is this?" None
               (answering 1751328060 (ok_with (json_of_events two_replies)))
               sample_world))
     = messages sample_world
         ++ [UserTurn "what is this?" None;
             AssistantTurn (JStr "A cat on a sofa.")]
  /\ messages
       (snd (send_message "what is this?" None
               (answering 1751328060 (ok_with (json_of_events two_replies)))
               sample_world))
     <> messages sample_world
          ++ [UserTurn "what is this?" None;
              AssistantTurn (JStr "Looking at the image.")].
Proof.
  split; [reflexivity|]. split; [reflexivity|].
  split; [reflexivity|]. vm_compute. discriminate.
Qed.

(** A model event with non-empty parts whose first part has no text does
    not end the scan: a later event still supplies the reply. *)
Example textless_first_model_event :
  first_reply [ {| ev_role := "model"; ev_parts := [None] |};
                model_says "A cat on a sofa." ] = None
  /\ messages
       (snd (send_message "what is this?" None
               (answering 1751328060
                  (ok_with (json_of_events
                              [ {| ev_role := "model"; ev_parts := [None] |};
                                model_says "A cat on a sofa." ])))
               sample_world))
     = messages sample_world
         ++ [UserTurn "what is this?" None;
             AssistantTurn (JStr "A cat on a sofa.")].
Proof. split; reflexivity. Qed.

(** An empty text is no reply. *)
Example empty_text_is_not_appended :
  messages
    (snd (send_message "what is this?" None
            (answering 1751328060 (ok_with (json_of_events [model_says ""])))
            sample_world))
  = messages sample_world ++ [UserTurn "what is this?" None].
Proof. reflexivity. Qed.


(** Bodies that are JSON but not a list of event objects: an empty dict
    is scanned as an empty loop; a string is walked character by
    character and [.get] fails on the first; [null] cannot be iterated; a
    part that is a string containing "text" passes the [in] test and then
    fails at the subscript; a text that is a number is taken as it is. *)
Example other_bodies :
  parse_response (JObj []) = Return JNull
  /\ parse_response (JStr "ok") = Raised AttributeError
  /\ parse_response JNull = Raised TypeError
  /\ parse_response
       (JArr [JObj [("content",
                     JObj [("role", JStr "model");
                           ("parts", JArr [JStr "some text"])])]])
     = Raised TypeError
  /\ parse_response
       (JArr [JObj [("content",
                     JObj [("role", JStr "model");
                           ("parts", JArr [JObj [("text", JNum 5)]])])]])
     = Return (JNum 5)
  /\ parse_response (JArr [JObj []]) = Return JNull.
Proof. repeat split. Qed.

(** *** The boolean result of a submission *)





(** *** Sequences of actions *)

(** One action either resets the history, and is then a session creation
    that returned [True] and named the session after its clock reading,
    or it only extends the history and leaves the session alone. *)
Lemma exec_op_step (e : env) (o : op) (w : world) :
  exists added : list effect,
    log (snd (exec_op e o w)) = log w ++ added
    /\ ((resets added = 0%nat
         /\ assigned added = []
         /\ session_id (snd (exec_op e o w)) = session_id w
         /\ exists ext, messages (snd (exec_op e o w)) = messages w ++ ext)
        \/ (o = CreateSession
            /\ fst (exec_op e o w) = Return true
            /\ resets added = 1%nat
            /\ assigned added = [session_name (clock e)]
            /\ session_id (snd (exec_op e o w)) = Some (session_name (clock e))
            /\ messages (snd (exec_op e o w)) = [])).
Proof.
  destruct o as [|m f]; cbn [exec_op].
  - rewrite create_session_eq. cbn zeta.
    destruct (host e _) as [resp|x];
      [destruct (status_code resp =? 200)%Z|].
    + eexists [_; _; _].
      split; [cbn [snd clear_messages assign_session emit log];
              rewrite <- !app_assoc; reflexivity|].
      right. repeat split.
    + eexists [_; _].
      split; [cbn [snd emit log]; rewrite <- !app_assoc; reflexivity|].
      left. repeat split. exists []. symmetry. apply app_nil_r.
    + eexists [_]. split; [reflexivity|].
      left. repeat split. exists []. symmetry. apply app_nil_r.
  - destruct (active w) eqn:Ha.
    + rewrite (send_message_active m f e w Ha). cbn zeta.
      destruct (host e _) as [resp|x];
        [destruct (status_code resp =? 200)%Z;
         [destruct (json_body resp) as [events|];
          [destruct (parse_response events) as [a|x];
           [destruct (Py.truthy a)|]|]|]|];
        cbn [fst snd submitted push_message emit log messages session_id];
        rewrite <- ?app_assoc;
        (eexists; split; [reflexivity|]);
        left; repeat split; eexists; reflexivity.
    + rewrite (send_message_inactive m f e w Ha).
      eexists [_]. split; [reflexivity|].
      left. repeat split. exists []. symmetry. apply app_nil_r.
Qed.

Lemma run_ops_resets_mono (script : list (env * op)) (w : world) :
  (resets (log w) <= resets (log (run_ops script w)))%nat.
Proof.
  revert w. induction script as [|[e o] rest IH]; intros w; cbn [run_ops].
  - lia.
  - specialize (IH (snd (exec_op e o w))).
    destruct (exec_op_step e o w) as (added & Hl & _).
    rewrite Hl, resets_app in IH. lia.
Qed.

(** Without a reset in between, the history only grows. *)
Lemma run_ops_extends (script : list (env * op)) (w : world) :
  resets (log (run_ops script w)) = resets (log w) ->
  exists ext, messages (run_ops script w) = messages w ++ ext.
Proof.
  revert w. induction script as [|[e o] rest IH]; intros w; cbn [run_ops].
  - intros _. exists []. symmetry. apply app_nil_r.
  - intros Hr.
    pose proof (run_ops_resets_mono rest (snd (exec_op e o w))) as Hmono.
    destruct (exec_op_step e o w) as (added & Hl & Hcase).
    rewrite Hl, resets_app in Hmono.
    destruct Hcase as [(Hz & _ & _ & ext & Hm) | (_ & _ & Hone & _)];
      [|lia].
    destruct (IH (snd (exec_op e o w))) as [ext' Hm'].
    + rewrite Hr, Hl, resets_app. lia.
    + exists (ext ++ ext'). rewrite Hm', Hm, app_assoc. reflexivity.
Qed.

(** The names assigned during a script are those of some of its
    [CreateSession] clock readings, in order. *)
Lemma run_ops_assigned (script : list (env * op)) (w : world) :
  StronglySorted Z.lt (create_clocks script) ->
  exists ts : list Z,
    assigned (log (run_ops script w))
    = assigned (log w) ++ map session_name ts
    /\ StronglySorted Z.lt ts
    /\ Forall (fun t => In t (create_clocks script)) ts.
Proof.
  revert w. induction script as [|[e o] rest IH]; intros w Hs; cbn [run_ops].
  - exists []. split; [symmetry; apply app_nil_r|]. split; constructor.
  - destruct (exec_op_step e o w) as (added & Hl & Hcase).
    destruct Hcase as [(_ & Ha & _) | (-> & _ & _ & Ha & _)].
    + assert (Hs' : StronglySorted Z.lt (create_clocks rest)).
      { destruct o; cbn [create_clocks] in Hs; [|exact Hs].
        apply StronglySorted_inv in Hs. apply Hs. }
      destruct (IH (snd (exec_op e o w)) Hs') as (ts & Hts & Hsorted & Hin).
      exists ts. rewrite Hts, Hl, assigned_app, Ha, app_nil_r.
      split; [reflexivity|]. split; [exact Hsorted|].
      eapply Forall_impl; [|exact Hin].
      intros t Ht. destruct o; cbn [create_clocks]; [right|]; exact Ht.
    + cbn [create_clocks] in Hs. apply StronglySorted_inv in Hs.
      destruct Hs as [Hs' Hlt].
      destruct (IH (snd (exec_op e CreateSession w)) Hs')
        as (ts & Hts & Hsorted & Hin).
      exists (clock e :: ts).
      rewrite Hts, Hl, assigned_app, Ha, <- app_assoc.
      split; [reflexivity|]. split.
      * constructor; [exact Hsorted|].
        rewrite Forall_forall in *. intros t Ht. apply Hlt, Hin, Ht.
      * constructor; [left; reflexivity|].
        eapply Forall_impl; [|exact Hin]. intros t Ht. right. exact Ht.
Qed.

(** The stored session id is the name assigned last. *)
Lemma run_ops_session_id (script : list (env * op)) (w : world) :
  session_id w = last (map Some (assigned (log w))) None ->
  session_id (run_ops script w)
  = last (map Some (assigned (log (run_ops script w)))) None.
Proof.
  revert w. induction script as [|[e o] rest IH]; intros w Hw; cbn [run_ops].
  - exact Hw.
  - apply IH.
    destruct (exec_op_step e o w) as (added & Hl & Hcase).
    destruct Hcase as [(_ & Ha & Hsid & _) | (_ & _ & _ & Ha & Hsid & _)];
      rewrite Hl, assigned_app, Ha, Hsid.
    + rewrite app_nil_r. exact Hw.
    + rewrite map_app. cbn [map]. rewrite last_last. reflexivity.
Qed.

Lemma sorted_names_nodup (ts : list Z) :
  StronglySorted Z.lt ts -> NoDup (map session_name ts).
Proof.
  induction 1 as [|t ts _ IH Hlt]; cbn [map]; constructor; [|exact IH].
  intros Hin. apply in_map_iff in Hin. destruct Hin as (t' & Heq & Hin').
  apply session_name_inj in Heq. subst t'.
  rewrite Forall_forall in Hlt. specialize (Hlt t Hin'). lia.
Qed.

(** C8. Along every script of [CreateSession] and [SendTurn] actions:
    an action that does not reset the history extends it, and a reset
    happens only in a [CreateSession] that returned [True]; over any run
    of actions without a reset the history at the start is a prefix of the
    history at the end; a [CreateSession] that returns [True] leaves the
    history empty; and when the clock readings of the [CreateSession]
    actions increase strictly, no session name is assigned twice in a run
    from the freshly loaded page. *)
Theorem history_and_session_names
        (script : list (env * op)) (w : world) :
  (forall e o,
      (exists ext, messages (snd (exec_op e o w)) = messages w ++ ext)
      \/ (o = CreateSession
          /\ fst (exec_op e o w) = Return true
          /\ messages (snd (exec_op e o w)) = []))
  /\ (resets (log (run_ops script w)) = resets (log w) ->
      exists ext, messages (run_ops script w) = messages w ++ ext)
  /\ (forall e,
         fst (create_session e w) = Return true ->
         messages (snd (create_session e w)) = []
         /\ resets (log (snd (create_session e w))) = S (resets (log w)))
  /\ (StronglySorted Z.lt (create_clocks script) ->
      forall uid,
        NoDup (assigned (log (run_ops script (fresh uid))))
        /\ session_id (run_ops script (fresh uid))
           = last (map Some (assigned (log (run_ops script (fresh uid)))))
                  None).
Proof.
  split; [|split; [|split]].
  - intros e o. destruct (exec_op_step e o w) as (added & _ & Hcase).
    destruct Hcase as [(_ & _ & _ & Hext) | (Ho & Hr & _ & _ & _ & Hm)].
    + left. exact Hext.
    + right. repeat split; assumption.
  - apply run_ops_extends.
  - intros e. rewrite create_session_eq. cbn zeta.
    destruct (host e _) as [resp|x];
      [destruct (status_code resp =? 200)%Z|];
      cbn [fst]; try discriminate.
    intros _. split; [reflexivity|].
    cbn [snd clear_messages assign_session emit log].
    rewrite !resets_app. cbn [resets]. lia.
  - intros Hs uid. split.
    + destruct (run_ops_assigned script (fresh uid) Hs)
        as (ts & Hts & Hsorted & _).
      rewrite Hts. cbn [fresh log assigned app].
      apply sorted_names_nodup. exact Hsorted.
    + apply run_ops_session_id. reflexivity.
Qed.

Lemma history_and_session_names_witness :
  StronglySorted Z.lt (create_clocks sample_script)
  /\ NoDup (assigned (log (run_ops sample_script (fresh "user-7"))))
  /\ session_id (run_ops sample_script (fresh "user-7"))
     = Some "session-1751328060".
Proof.
  assert (Hs : StronglySorted Z.lt (create_clocks sample_script)).
  { cbn [create_clocks sample_script answering clock].
    repeat constructor; lia. }
  split; [exact Hs|].
  destruct (history_and_session_names sample_script (fresh "user-7"))
    as (_ & _ & _ & H).
  destruct (H Hs "user-7") as [Hn Hl].
  split; [exact Hn | rewrite Hl; reflexivity].
Defined.

(** The names are only as fine as the clock reading: two sessions the
    host accepts at the same reading get the same name. *)
Example same_reading_same_name :
  assigned
    (log (run_ops [ (answering 1751328000 (ok_with JNull), CreateSession);
                    (answering 1751328000 (ok_with JNull), CreateSession) ]
                  (fresh "user-7")))
  = ["session-1751328000"; "session-1751328000"].
Proof. reflexivity. Qed.

End ClientFacts.

(** ** Further properties of the two functions *)

Module SessionFacts.
Import ClientFacts.

Ltac send_cases e resp events a x :=
  destruct (host e _) as [resp|x];
  [destruct (status_code resp =? 200)%Z eqn:?;
   [destruct (json_body resp) as [events|] eqn:?;
    [destruct (parse_response events) as [a|x] eqn:?;
     [destruct (Py.truthy a) eqn:?|]|]|]|].

(** *** Exceptions *)

(** X1. An exception escapes [create_session] exactly when
    [requests.post] raises it; the user id, the session id and the
    history are then untouched, the request is the only effect and no
    error is shown. *)
Theorem create_session_raises (e : env) (w : world) (x : exn) :
  (fst (create_session e w) = Raised x
   <-> host e (session_request w (clock e)) = Raised x)
  /\ (fst (create_session e w) = Raised x ->
      user_id (snd (create_session e w)) = user_id w
      /\ session_id (snd (create_session e w)) = session_id w
      /\ messages (snd (create_session e w)) = messages w
      /\ log (snd (create_session e w))
         = log w ++ [HttpPost (session_request w (clock e))]).
Proof.
  rewrite create_session_eq. cbn zeta.
  destruct (host e _) as [resp|y].
  - destruct (status_code resp =? 200)%Z; cbn [fst];
      (split; [split; discriminate | discriminate]).
  - cbn [fst snd emit user_id session_id messages log].
    split; [split; intros H; congruence|]. intros _. repeat split.
Qed.

Lemma create_session_raises_witness :
  fst (create_session (unreachable 1751328060) sample_world)
  = Raised ConnectionError
  /\ session_id (snd (create_session (unreachable 1751328060) sample_world))
     = session_id sample_world
  /\ messages (snd (create_session (unreachable 1751328060) sample_world))
     = messages sample_world.
Proof.
  assert (H : fst (create_session (unreachable 1751328060) sample_world)
              = Raised ConnectionError) by reflexivity.
  split; [exact H|].
  destruct (create_session_raises (unreachable 1751328060) sample_world
              ConnectionError) as [_ Hkeep].
  destruct (Hkeep H) as (_ & Hs & Hm & _).
  split; [exact Hs | exact Hm].
Defined.

(** X2. When an exception escapes [send_message] a session was active,
    the request was issued, and the host either did not answer or
    answered with status 200 and a body that could not be read or
    scanned; the history is then the one before the call followed by the
    user's turn, the session id is the same and no error is shown. *)
Theorem send_message_raises
        (m : string) (f : option uploaded_file) (e : env) (w : world)
        (x : exn) :
  fst (send_message m f e w) = Raised x ->
  active w = true
  /\ (host e (turn_request w m f) = Raised x
      \/ exists resp,
          host e (turn_request w m f) = Return resp
          /\ status_code resp = 200%Z
          /\ (json_body resp = None
              \/ exists events,
                  json_body resp = Some events
                  /\ parse_response events = Raised x))
  /\ messages (snd (send_message m f e w)) = messages w ++ [user_turn m f]
  /\ session_id (snd (send_message m f e w)) = session_id w
  /\ log (snd (send_message m f e w))
     = log w ++ [AppendMessage (user_turn m f);
                 HttpPost (turn_request w m f)].
Proof.
  destruct (active w) eqn:Ha.
  - rewrite (send_message_active m f e w Ha). cbn zeta.
    send_cases e resp events a y; cbn [fst]; intros H; try discriminate;
      (split; [reflexivity|]);
      (split;
       [|cbn [snd submitted push_message emit messages session_id log];
         rewrite <- ?app_assoc; repeat split]).
    + right. exists resp. split; [reflexivity|].
      split; [apply Z.eqb_eq; assumption|].
      right. exists events. split; [assumption|]. congruence.
    + right. exists resp. split; [reflexivity|].
      split; [apply Z.eqb_eq; assumption|]. left. assumption.
    + left. congruence.
  - rewrite (send_message_inactive m f e w Ha). cbn [fst]. discriminate.
Qed.

Lemma send_message_raises_witness :
  fst (send_message "what is this?" None (answering 1751328060 ok_html)
         sample_world) = Raised JSONDecodeError
  /\ messages (snd (send_message "what is this?" None
                      (answering 1751328060 ok_html) sample_world))
     = messages sample_world ++ [user_turn "what is this?" None].
Proof.
  split; [reflexivity|].
  apply (send_message_raises "what is this?" None
           (answering 1751328060 ok_html) sample_world JSONDecodeError).
  reflexivity.
Defined.

(** *** What no action changes *)

Lemma exec_op_keeps (e : env) (o : op) (w : world) :
  user_id (snd (exec_op e o w)) = user_id w
  /\ (active w = true -> active (snd (exec_op e o w)) = true)
  /\ (named_session (session_id w) ->
      named_session (session_id (snd (exec_op e o w))))
  /\ (exists rq,
         posts (log (snd (exec_op e o w)))
         = posts (log w) ++ (if match o with
                                | CreateSession => true
                                | SendTurn _ _ => active w
                                end then [rq] else [])).
Proof.
  destruct o as [|m f]; cbn [exec_op].
  - rewrite create_session_eq. cbn zeta.
    destruct (host e _) as [resp|x];
      [destruct (status_code resp =? 200)%Z|];
      cbn [snd clear_messages assign_session emit user_id session_id log];
      (split; [reflexivity|]);
      (split; [try (intros H; exact H); intros _; reflexivity|]);
      (split; [try (intros H; exact H);
               intros _; right; exists (clock e); reflexivity|]);
      exists (session_request w (clock e));
      rewrite ?posts_app; cbn [posts]; rewrite ?app_nil_r; reflexivity.
  - destruct (active w) eqn:Ha.
    + rewrite (send_message_active m f e w Ha). cbn zeta.
      send_cases e resp events a x;
        cbn [snd submitted push_message emit user_id session_id log];
        (split; [reflexivity|]);
        (split; [intros _; exact Ha|]);
        (split; [intros H; exact H|]);
        exists (turn_request w m f);
        rewrite ?posts_app; cbn [posts]; rewrite ?app_nil_r; reflexivity.
    + rewrite (send_message_inactive m f e w Ha).
      cbn [snd emit user_id session_id log].
      split; [reflexivity|]. split; [intros H; discriminate|].
      split; [intros H; exact H|].
      exists (session_request w 0). rewrite posts_app. cbn [posts].
      reflexivity.
Qed.

(** X3. Along every script, from every state, the user id stays what it
    was, and a session that is active stays active: no action clears the
    session id. *)
Theorem user_and_session_persist (script : list (env * op)) (w : world) :
  user_id (run_ops script w) = user_id w
  /\ (active w = true -> active (run_ops script w) = true).
Proof.
  revert w. induction script as [|[e o] rest IH]; intros w; cbn [run_ops].
  - split; [reflexivity | intros H; exact H].
  - destruct (exec_op_keeps e o w) as (Hu & Ha & _).
    destruct (IH (snd (exec_op e o w))) as [IHu IHa].
    split; [rewrite IHu; exact Hu | intros H; apply IHa, Ha, H].
Qed.

Lemma user_and_session_persist_witness :
  active sample_world = true
  /\ user_id (run_ops refused_script sample_world) = user_id sample_world
  /\ active (run_ops refused_script sample_world) = true.
Proof.
  assert (H : active sample_world = true) by reflexivity.
  split; [exact H|].
  destruct (user_and_session_persist refused_script sample_world)
    as [Hu Ha].
  split; [exact Hu | exact (Ha H)].
Defined.

(** X4. In every state a script reaches from the freshly loaded page the
    session id is [None] or a name ["session-<t>"]; it is never the empty
    string, so a session is active exactly when the id is not [None]. *)
Theorem reachable_session_id (script : list (env * op)) (uid : string) :
  named_session (session_id (run_ops script (fresh uid)))
  /\ session_id (run_ops script (fresh uid)) <> Some ""
  /\ (active (run_ops script (fresh uid)) = true
      <-> session_id (run_ops script (fresh uid)) <> None).
Proof.
  assert (H : forall w, named_session (session_id w) ->
                        named_session (session_id (run_ops script w))).
  { induction script as [|[e o] rest IH]; intros w Hw; cbn [run_ops].
    - exact Hw.
    - apply IH. apply (exec_op_keeps e o w). exact Hw. }
  specialize (H (fresh uid) (or_introl eq_refl)).
  split; [exact H|]. unfold active.
  destruct H as [-> | [t ->]].
  - split; [discriminate|]. cbn [Py.truthy_str].
    split; [discriminate | intros Hn; exfalso; apply Hn; reflexivity].
  - split.
    + intros Heq. injection Heq as Heq.
      exact (session_name_nonempty t Heq).
    + rewrite session_name_truthy.
      split; [discriminate | reflexivity].
Qed.

(** X5. With an active session every action of a script issues exactly
    one request, whatever the host answers: nothing is retried and
    nothing is skipped.  From any state a script of [n] actions issues at
    most [n] requests. *)
Theorem one_request_per_action (script : list (env * op)) (w : world) :
  (List.length (posts (log (run_ops script w)))
   <= List.length (posts (log w)) + List.length script)%nat
  /\ (active w = true ->
      List.length (posts (log (run_ops script w)))
      = (List.length (posts (log w)) + List.length script)%nat).
Proof.
  revert w. induction script as [|[e o] rest IH]; intros w;
    cbn [run_ops List.length].
  - split; [lia | intros _; lia].
  - destruct (exec_op_keeps e o w) as (_ & Ha & _ & rq & Hp).
    destruct (IH (snd (exec_op e o w))) as [IHle IHeq].
    rewrite Hp in IHle, IHeq. rewrite length_app in IHle, IHeq.
    split.
    + destruct o as [|m f]; [|destruct (active w)];
        cbn [List.length] in IHle; lia.
    + intros Hw. specialize (IHeq (Ha Hw)). rewrite Hw in IHeq.
      destruct o; cbn [List.length] in IHeq; lia.
Qed.

Lemma one_request_per_action_witness :
  active sample_world = true
  /\ List.length
       (posts (log (run_ops
                      [ (unreachable 1751328060, SendTurn "a" None);
                        (answering 1751328061 server_error, CreateSession);
                        (answering 1751328062 ok_html, SendTurn "b" None) ]
                      sample_world)))
     = 3%nat.
Proof.
  split; [reflexivity|].
  apply (one_request_per_action
           [ (unreachable 1751328060, SendTurn "a" None);
             (answering 1751328061 server_error, CreateSession);
             (answering 1751328062 ok_html, SendTurn "b" None) ]
           sample_world).
  reflexivity.
Defined.

(** *** The shape of the history *)

Lemma exec_op_history (e : env) (o : op) (w : world) :
  (o = CreateSession /\ messages (snd (exec_op e o w)) = [])
  \/ messages (snd (exec_op e o w)) = messages w
  \/ (active w = true
      /\ exists m f,
          messages (snd (exec_op e o w)) = messages w ++ [user_turn m f]
          \/ exists a,
              Py.truthy a = true
              /\ messages (snd (exec_op e o w))
                 = messages w ++ [user_turn m f; AssistantTurn a]).
Proof.
  destruct o as [|m f]; cbn [exec_op].
  - rewrite create_session_eq. cbn zeta.
    destruct (host e _) as [resp|x];
      [destruct (status_code resp =? 200)%Z|];
      cbn [snd clear_messages assign_session emit messages];
      [left; split; reflexivity | right; left; reflexivity
       | right; left; reflexivity].
  - destruct (active w) eqn:Ha.
    + rewrite (send_message_active m f e w Ha). cbn zeta.
      right. right. split; [reflexivity|]. exists m, f.
      send_cases e resp events a x;
        cbn [snd submitted push_message emit messages];
        rewrite <- ?app_assoc;
        try (left; reflexivity).
      right. exists a. split; [assumption | reflexivity].
    + rewrite (send_message_inactive m f e w Ha).
      right. left. reflexivity.
Qed.

(** X6. In every state a script reaches from the freshly loaded page, a
    history that is not empty belongs to an active session: turns are
    stored only while a session exists. *)
Theorem history_needs_session (script : list (env * op)) (uid : string) :
  messages (run_ops script (fresh uid)) <> [] ->
  active (run_ops script (fresh uid)) = true.
Proof.
  assert (H : forall w,
             (messages w = [] \/ active w = true) ->
             (messages (run_ops script w) = []
              \/ active (run_ops script w) = true)).
  { induction script as [|[e o] rest IH]; intros w Hw; cbn [run_ops].
    - exact Hw.
    - apply IH.
      destruct (exec_op_keeps e o w) as (_ & Ha & _).
      destruct (exec_op_history e o w) as [[_ Hm] | [Hm | [Hact _]]].
      + left. exact Hm.
      + rewrite Hm. destruct Hw as [Hw|Hw]; [left; exact Hw|].
        right. apply Ha, Hw.
      + right. apply Ha, Hact. }
  intros Hne. destruct (H (fresh uid) (or_introl eq_refl)) as [Hm|Ha].
  - contradiction.
  - exact Ha.
Qed.

Lemma history_needs_session_witness :
  messages (run_ops refused_script (fresh "user-7")) <> []
  /\ active (run_ops refused_script (fresh "user-7")) = true.
Proof.
  assert (H : messages (run_ops refused_script (fresh "user-7")) <> [])
    by (cbv; discriminate).
  split; [exact H|].
  apply (history_needs_session refused_script "user-7" H).
Defined.

Lemma paired_app (b : bool) (ms ext : list turn) :
  paired b (ms ++ ext) = paired b ms && paired (ends_on_user b ms) ext.
Proof.
  revert b. induction ms as [|t ms IH]; intros b; cbn [app paired ends_on_user].
  - reflexivity.
  - destruct t as [c img | c].
    + apply IH.
    + rewrite IH. destruct b, (Py.truthy c); reflexivity.
Qed.

(** X7. If every assistant turn of the history comes right after a user
    turn and has a truthy content, the same holds after every script:
    the history never starts with an assistant turn, never holds two of
    them in a row and never holds an empty reply. *)
Theorem history_stays_paired (script : list (env * op)) (w : world) :
  paired false (messages w) = true ->
  paired false (messages (run_ops script w)) = true.
Proof.
  revert w. induction script as [|[e o] rest IH]; intros w Hw; cbn [run_ops].
  - exact Hw.
  - apply IH.
    destruct (exec_op_history e o w)
      as [[_ Hm] | [Hm | (_ & m & f & [Hm | (a & Ht & Hm)])]];
      rewrite Hm; [reflexivity | exact Hw | |];
      rewrite paired_app, Hw; cbn [andb user_turn paired];
      [reflexivity | rewrite Ht; reflexivity].
Qed.

Lemma history_stays_paired_witness :
  paired false (messages sample_world) = true
  /\ paired false (messages (run_ops sample_script sample_world)) = true.
Proof.
  split; [reflexivity|].
  apply (history_stays_paired sample_script sample_world). reflexivity.
Defined.

(** *** Where a turn is sent *)

(** X8. After [create_session] returned [True] at clock reading [t], the
    next [send_message] posts to "/run" a payload whose "sessionId" is
    the name "session-<t>" that ended the URL of the session request,
    whose "userId" is the user id of that URL and whose "appName" is
    "image_agent"; the history then starts with that user's turn. *)
Theorem turn_goes_to_created_session
        (e e' : env) (w : world) (resp : response)
        (m : string) (f : option uploaded_file) :
  host e (session_request w (clock e)) = Return resp ->
  status_code resp = 200%Z ->
  exists rq ext,
    posts (log (snd (send_message m f e' (snd (create_session e w)))))
    = posts (log w) ++ [session_request w (clock e); rq]
    /\ url (session_request w (clock e))
       = ("http://localhost:8000/apps/image_agent/users/" ++ user_id w
            ++ "/sessions/" ++ session_name (clock e))%string
    /\ url rq = "http://localhost:8000/run"
    /\ Py.item (data rq) "appName" = Return (JStr "image_agent")
    /\ Py.item (data rq) "userId" = Return (JStr (user_id w))
    /\ Py.item (data rq) "sessionId" = Return (JStr (session_name (clock e)))
    /\ messages (snd (send_message m f e' (snd (create_session e w))))
       = user_turn m f :: ext.
Proof.
  intros Hh Hs.
  assert (Hc : create_session e w
               = (Return true,
                  clear_messages
                    (assign_session (session_name (clock e))
                       (emit (HttpPost (session_request w (clock e))) w)))).
  { rewrite create_session_eq. cbn zeta. rewrite Hh, Hs. reflexivity. }
  rewrite Hc. cbn [snd].
  set (w1 := clear_messages _).
  assert (Ha : active w1 = true) by reflexivity.
  exists (turn_request w1 m f).
  rewrite (send_message_posts m f e' w1 Ha).
  rewrite (send_message_active m f e' w1 Ha). cbn zeta.
  assert (Hp : posts (log w1) = posts (log w) ++ [session_request w (clock e)]).
  { unfold w1. cbn [clear_messages assign_session emit log].
    rewrite !posts_app. cbn [posts]. rewrite !app_nil_r. reflexivity. }
  rewrite Hp, <- app_assoc.
  send_cases e' r events a x;
    cbn [snd submitted push_message emit messages];
    eexists; repeat split.
Qed.

Lemma turn_goes_to_created_session_witness :
  host (answering 1751328060 (ok_with JNull))
       (session_request sample_world 1751328060) = Return (ok_with JNull)
  /\ status_code (ok_with JNull) = 200%Z
  /\ exists rq ext,
      posts (log (snd (send_message "hi" None (unreachable 1751328061)
                         (snd (create_session
                                 (answering 1751328060 (ok_with JNull))
                                 sample_world)))))
      = posts (log sample_world)
          ++ [session_request sample_world 1751328060; rq]
      /\ url (session_request sample_world 1751328060)
         = ("http://localhost:8000/apps/image_agent/users/"
              ++ user_id sample_world
              ++ "/sessions/" ++ session_name 1751328060)%string
      /\ url rq = "http://localhost:8000/run"
      /\ Py.item (data rq) "appName" = Return (JStr "image_agent")
      /\ Py.item (data rq) "userId" = Return (JStr (user_id sample_world))
      /\ Py.item (data rq) "sessionId"
         = Return (JStr (session_name 1751328060))
      /\ messages (snd (send_message "hi" None (unreachable 1751328061)
                          (snd (create_session
                                  (answering 1751328060 (ok_with JNull))
                                  sample_world))))
         = user_turn "hi" None :: ext.
Proof.
  split; [reflexivity|]. split; [reflexivity|].
  apply (turn_goes_to_created_session
           (answering 1751328060 (ok_with JNull)) (unreachable 1751328061)
           sample_world (ok_with JNull) "hi" None);
    reflexivity.
Defined.

(** *** Events that carry no reply *)

Lemma scan_event_passed_over (event : json) (acc : json) :
  passed_over event = true -> scan_event event acc = Return acc.
Proof.
  unfold passed_over, scan_event.
  destruct event as [| | | |items|fields]; try discriminate.
  cbn [Py.get result_bind].
  destruct (Py.assoc "content" fields) as [c|]; [|intros _; reflexivity].
  destruct c as [| | | |items|inner]; try discriminate.
  cbn [Py.get result_bind].
  destruct (Py.eq_str _ "model"); cbn [negb orb andb];
    [|intros _; reflexivity].
  destruct (Py.truthy _); cbn [negb]; [discriminate | reflexivity].
Qed.

Lemma scan_events_passed_over (events : list json) (acc : json) :
  forallb passed_over events = true -> scan_events events acc = Return acc.
Proof.
  induction events as [|ev rest IH]; cbn [forallb scan_events].
  - reflexivity.
  - intros H. apply andb_prop in H. destruct H as [Hev Hrest].
    rewrite (scan_event_passed_over ev acc Hev). cbn [result_bind].
    apply IH. exact Hrest.
Qed.

(** X9. When the host answers with status 200 and a list in which every
    event is a dict that has no "content", or whose content is a dict
    with a role other than "model" or with absent or falsy "parts",
    [send_message] raises nothing, returns [True] and adds the user's
    turn alone; what else such an event holds, well formed or not, is
    never looked at. *)
Theorem silent_events_add_no_reply
        (m : string) (f : option uploaded_file) (e : env) (w : world)
        (resp : response) (events : list json) :
  active w = true ->
  host e (turn_request w m f) = Return resp ->
  status_code resp = 200%Z ->
  json_body resp = Some (JArr events) ->
  forallb passed_over events = true ->
  fst (send_message m f e w) = Return true
  /\ messages (snd (send_message m f e w)) = messages w ++ [user_turn m f].
Proof.
  intros Ha Hh Hs Hj Hev. rewrite (send_message_active m f e w Ha). cbn zeta.
  rewrite Hh, Hs, Hj. cbn [Z.eqb Pos.eqb].
  unfold parse_response. cbn [Py.iter result_bind].
  rewrite (scan_events_passed_over events JNull Hev).
  cbn [Py.truthy]. split; reflexivity.
Qed.

Lemma silent_events_add_no_reply_witness :
  active sample_world = true
  /\ host (answering 1751328060 (ok_with (JArr silent_events)))
          (turn_request sample_world "hi" None)
     = Return (ok_with (JArr silent_events))
  /\ status_code (ok_with (JArr silent_events)) = 200%Z
  /\ json_body (ok_with (JArr silent_events)) = Some (JArr silent_events)
  /\ forallb passed_over silent_events = true
  /\ fst (send_message "hi" None
            (answering 1751328060 (ok_with (JArr silent_events)))
            sample_world) = Return true.
Proof.
  split; [reflexivity|]. split; [reflexivity|]. split; [reflexivity|].
  split; [reflexivity|]. split; [reflexivity|].
  apply (silent_events_add_no_reply "hi" None
           (answering 1751328060 (ok_with (JArr silent_events)))
           sample_world (ok_with (JArr silent_events)) silent_events);
    reflexivity.
Defined.

(** *** Sending again after a refusal *)

(** X10. A turn the host refused is not taken back: when the same text
    and file are sent again and the host then answers with status 200
    and a list of events, the two requests are the same and the history
    holds the user's turn twice, followed by the reply. *)
Theorem resend_repeats_user_turn
        (m : string) (f : option uploaded_file) (e1 e2 : env) (w : world)
        (r1 r2 : response) (evs : list inbound_event) :
  active w = true ->
  host e1 (turn_request w m f) = Return r1 ->
  status_code r1 <> 200%Z ->
  host e2 (turn_request w m f) = Return r2 ->
  status_code r2 = 200%Z ->
  json_body r2 = Some (json_of_events evs) ->
  fst (send_message m f e2 (snd (send_message m f e1 w))) = Return true
  /\ messages (snd (send_message m f e2 (snd (send_message m f e1 w))))
     = messages w ++ [user_turn m f; user_turn m f]
         ++ reply_turns (last_reply evs)
  /\ posts (log (snd (send_message m f e2 (snd (send_message m f e1 w)))))
     = posts (log w) ++ [turn_request w m f; turn_request w m f].
Proof.
  intros Ha H1 Hs1 H2 Hs2 Hj.
  rewrite (send_message_refused m f e1 w r1 Ha H1 Hs1). cbn [snd].
  set (w1 := emit _ _).
  assert (Ha1 : active w1 = true) by exact Ha.
  assert (Hrq : turn_request w1 m f = turn_request w m f) by reflexivity.
  rewrite <- Hrq in H2.
  destruct (send_message_typed m f e2 w1 r2 evs Ha1 H2 Hs2 Hj) as [Hr Hm].
  split; [exact Hr|]. split.
  - rewrite Hm. unfold w1.
    cbn [emit submitted push_message messages].
    rewrite <- app_assoc. reflexivity.
  - rewrite (send_message_posts m f e2 w1 Ha1), Hrq. unfold w1.
    cbn [emit submitted push_message log].
    rewrite !posts_app. cbn [posts]. rewrite !app_nil_r, <- app_assoc.
    reflexivity.
Qed.

Lemma resend_repeats_user_turn_witness :
  active sample_world = true
  /\ status_code server_error <> 200%Z
  /\ messages
       (snd (send_message "what is this?" (Some sample_file)
               (answering 1751328061
                  (ok_with (json_of_events [model_says "A cat."])))
               (snd (send_message "what is this?" (Some sample_file)
                       (answering 1751328060 server_error) sample_world))))
     = messages sample_world
         ++ [user_turn "what is this?" (Some sample_file);
             user_turn "what is this?" (Some sample_file)]
         ++ reply_turns (last_reply [model_says "A cat."]).
Proof.
  split; [reflexivity|]. split; [discriminate|].
  apply (resend_repeats_user_turn "what is this?" (Some sample_file)
           (answering 1751328060 server_error)
           (answering 1751328061
              (ok_with (json_of_events [model_says "A cat."])))
           sample_world server_error
           (ok_with (json_of_events [model_says "A cat."]))
           [model_says "A cat."]);
    [reflexivity | reflexivity | discriminate
     | reflexivity | reflexivity | reflexivity].
Defined.

End SessionFacts.

(** ** Properties of the page script *)

Module PageFacts.
Import ClientFacts.


Lemma sidebar_quiet (i : inputs) (e : env) (w : world) :
  clicked i = false ->
  sidebar i e w = (Return tt, w, sidebar_head w ++ [Divider; Caption]).
Proof. unfold sidebar. intros ->. reflexivity. Qed.

(** What [create_session] leaves alone and what it logs. *)
Lemma create_session_frame (e : env) (w : world) :
  user_id (snd (create_session e w)) = user_id w
  /\ exists added,
      log (snd (create_session e w)) = log w ++ added
      /\ ~ In (StError no_session_error) added.
Proof.
  rewrite create_session_eq. cbn zeta.
  destruct (host e _) as [resp|x];
    [destruct (status_code resp =? 200)%Z|];
    cbn [snd clear_messages assign_session emit user_id log];
    rewrite <- ?app_assoc;
    (split; [reflexivity|]); eexists; (split; [reflexivity|]);
    cbn [app In]; intros H;
    repeat match goal with
           | H : _ \/ _ |- _ => destruct H as [H|H]
           end;
    try discriminate; exact H.
Qed.

(** The same for [send_message], which the script calls under an active
    session only. *)
Lemma send_message_frame
      (m : string) (f : option uploaded_file) (e : env) (w : world) :
  active w = true ->
  user_id (snd (send_message m f e w)) = user_id w
  /\ exists added,
      log (snd (send_message m f e w)) = log w ++ added
      /\ ~ In (StError no_session_error) added.
Proof.
  intros Ha. rewrite (send_message_active m f e w Ha). cbn zeta.
  destruct (host e _) as [resp|x];
    [destruct (status_code resp =? 200)%Z;
     [destruct (json_body resp) as [events|];
      [destruct (parse_response events) as [a|x];
       [destruct (Py.truthy a)|]|]|]|];
    cbn [snd submitted push_message emit user_id log];
    rewrite <- ?app_assoc;
    (split; [reflexivity|]); eexists; (split; [reflexivity|]);
    cbn [app In]; intros H;
    repeat match goal with
           | H : _ \/ _ |- _ => destruct H as [H|H]
           end;
    try discriminate; exact H.
Qed.

(** One run: the user id it stores and the effects it adds. *)
Lemma script_frame (i : inputs) (e : env) (p : page) (l : list effect) :
  st_user_id (page_of (script i e p l))
  = Some (user_id (init_state i p l))
  /\ st_session_id (page_of (script i e p l)) <> None
  /\ st_messages (page_of (script i e p l)) <> None
  /\ exists added,
      log_of (script i e p l) = l ++ added
      /\ ~ In (StError no_session_error) added.
Proof.
  unfold script. cbn zeta.
  set (w0 := init_state i p l).
  assert (Hl : log w0 = l) by reflexivity.
  assert (Hside :
            user_id (snd (fst (sidebar i e w0))) = user_id w0
            /\ exists added,
                log (snd (fst (sidebar i e w0))) = l ++ added
                /\ ~ In (StError no_session_error) added).
  { unfold sidebar. destruct (clicked i).
    - destruct (create_session_frame e w0) as (Hu & added & Hlog & Hno).
      rewrite Hl in Hlog.
      destruct (create_session e w0) as [[b|x] w1]; cbn [fst snd] in *;
        (split; [exact Hu | exists added; split; assumption]).
    - cbn [fst snd]. split; [reflexivity|].
      exists []. rewrite app_nil_r. split; [exact Hl | intros []]. }
  destruct (sidebar i e w0) as [[[u|x] w1] side]; cbn [fst snd] in Hside;
    destruct Hside as (Hu & added & Hlog & Hno).
  - unfold input_section.
    destruct (Py.truthy_str (session_id w1)) eqn:Ha;
      [destruct (chat_text i) as [m|];
       [destruct (negb (m =? "")) |]|];
      try (cbn [page_of log_of store st_user_id st_session_id st_messages];
           rewrite Hu;
           split; [reflexivity|]; split; [discriminate|];
           split; [discriminate|];
           exists added; split; assumption).
    destruct (send_message_frame m (uploaded i) e w1 Ha)
      as (Hu' & added' & Hlog' & Hno').
    destruct (send_message m (uploaded i) e w1) as [[b|x] w2];
      cbn [fst snd] in *;
      cbn [page_of log_of store st_user_id st_session_id st_messages];
      rewrite Hu', Hu;
      (split; [reflexivity|]); (split; [discriminate|]);
      (split; [discriminate|]);
      exists (added ++ added'); rewrite Hlog', Hlog, app_assoc;
      (split; [reflexivity|]);
      intros Hin; apply in_app_or in Hin; destruct Hin; contradiction.
  - cbn [page_of log_of store st_user_id st_session_id st_messages].
    rewrite Hu. split; [reflexivity|]. split; [discriminate|].
    split; [discriminate|]. exists added. split; assumption.
Qed.

(** X11. The first run of a browser session names the user
    ["user-<uuid>"]; every run stores a user id, a session entry and a
    history; and all later runs, whatever is clicked, typed or answered,
    keep the user id of the first. *)
Theorem user_id_is_set_once
        (runs : list (inputs * env)) (i : inputs) (e : env)
        (l : list effect) :
  st_user_id (page_of (script i e blank l))
  = Some ("user-" ++ uuid_user i)%string
  /\ st_user_id (fst (browse runs (page_of (script i e blank l))
                             (log_of (script i e blank l))))
     = Some ("user-" ++ uuid_user i)%string
  /\ st_session_id (fst (browse runs (page_of (script i e blank l))
                                (log_of (script i e blank l)))) <> None
  /\ st_messages (fst (browse runs (page_of (script i e blank l))
                              (log_of (script i e blank l)))) <> None.
Proof.
  destruct (script_frame i e blank l) as (Hu & Hs & Hm & _).
  cbn [init_state blank st_user_id user_id] in Hu.
  split; [exact Hu|].
  revert Hu Hs Hm.
  generalize (page_of (script i e blank l)) (log_of (script i e blank l)).
  induction runs as [|[i' e'] rest IH]; intros p l' Hu Hs Hm; cbn [browse fst].
  - repeat split; assumption.
  - destruct (script_frame i' e' p l') as (Hu' & Hs' & Hm' & _).
    apply IH; [|exact Hs'|exact Hm'].
    rewrite Hu'. unfold init_state. cbn [user_id]. rewrite Hu. reflexivity.
Qed.

(** X12. No run of the script, in any browser session, shows the error
    "Please create a session before sending messages.": the script calls
    [send_message] under an active session only. *)
Theorem guard_error_is_never_shown
        (runs : list (inputs * env)) (p : page) (l : list effect) :
  exists added,
    snd (browse runs p l) = l ++ added
    /\ ~ In (StError no_session_error) added.
Proof.
  revert p l. induction runs as [|[i e] rest IH]; intros p l; cbn [browse].
  - exists []. rewrite app_nil_r. split; [reflexivity | intros []].
  - destruct (script_frame i e p l) as (_ & _ & _ & added & Hlog & Hno).
    destruct (IH (page_of (script i e p l)) (log_of (script i e p l)))
      as (added' & Hlog' & Hno').
    exists (added ++ added'). rewrite Hlog', Hlog, app_assoc.
    split; [reflexivity|].
    intros Hin. apply in_app_or in Hin. destruct Hin; contradiction.
Qed.

(** The uploader key in force during a run. *)
Lemma input_section_inactive (i : inputs) (e : env) (w : world) (key : string) :
  active w = false ->
  input_section i e w key = (Finished, w, key, [Info]).
Proof. unfold active, input_section. intros ->. reflexivity. Qed.


(** X13. Without an active session and without a click, a run draws the
    sidebar with the "Create Session" button, the history and the hint;
    it offers neither the chat input nor the uploader, ignores any text
    and file, adds no effect and keeps the session and the history. *)
Theorem no_session_no_chat
        (i : inputs) (e : env) (p : page) (l : list effect) :
  active (init_state i p l) = false ->
  clicked i = false ->
  ending_of (script i e p l) = Finished
  /\ shown (script i e p l)
     = [PageConfig; Title; Header; CreateButton; Divider; Caption]
         ++ chat_history (messages (init_state i p l)) ++ [Info]
  /\ log_of (script i e p l) = l
  /\ st_session_id (page_of (script i e p l))
     = Some (session_id (init_state i p l))
  /\ st_messages (page_of (script i e p l))
     = Some (messages (init_state i p l)).
Proof.
  intros Ha Hc. unfold script. cbn zeta.
  rewrite (sidebar_quiet i e _ Hc), (input_section_inactive i e _ _ Ha).
  cbn [ending_of shown log_of page_of store st_session_id st_messages].
  assert (Hh : sidebar_head (init_state i p l) = [Header; CreateButton]).
  { unfold active in Ha. unfold sidebar_head.
    destruct (session_id (init_state i p l)) as [sid|]; [|reflexivity].
    cbn [Py.truthy_str] in Ha. rewrite Ha. reflexivity. }
  rewrite Hh. repeat split.
Qed.

Lemma no_session_no_chat_witness :
  active (init_state (submitting "hello" (Some sample_file)) blank []) = false
  /\ clicked (submitting "hello" (Some sample_file)) = false
  /\ shown (script (submitting "hello" (Some sample_file))
              (unreachable 1751328060) blank [])
     = [PageConfig; Title; Header; CreateButton; Divider; Caption;
        Subheader; Info]
  /\ log_of (script (submitting "hello" (Some sample_file))
               (unreachable 1751328060) blank []) = [].
Proof.
  split; [reflexivity|]. split; [reflexivity|].
  destruct (no_session_no_chat (submitting "hello" (Some sample_file))
              (unreachable 1751328060) blank [])
    as (_ & Hs & Hl & _); [reflexivity | reflexivity |].
  split; [exact Hs | exact Hl].
Defined.



(** X15. The uploader key is replaced exactly at [st.rerun()]: a run that
    ends there stores the new key, and a run that ends at its last line
    or at an exception keeps the key it found, or the one drawn when
    none was set and the sidebar did not raise.  A run ends at
    [st.rerun()] only after a request to "/run". *)
Theorem uploader_key_changes_at_rerun
        (i : inputs) (e : env) (p : page) (l : list effect) :
  (ending_of (script i e p l) = Rerun ->
   st_file_upload_key (page_of (script i e p l)) = Some (uuid_next i)
   /\ exists m,
       chat_text i = Some m /\ m <> ""
       /\ exists rq,
           url rq = "http://localhost:8000/run"
           /\ In (HttpPost rq) (log_of (script i e p l)))
  /\ (ending_of (script i e p l) <> Rerun ->
      st_file_upload_key (page_of (script i e p l)) = st_file_upload_key p
      \/ (st_file_upload_key p = None
          /\ st_file_upload_key (page_of (script i e p l))
             = Some (uuid_key i))).
Proof.
  unfold script. cbn zeta.
  destruct (sidebar i e (init_state i p l)) as [[[u|x] w1] side].
  - unfold input_section.
    destruct (Py.truthy_str (session_id w1)) eqn:Ha;
      [destruct (chat_text i) as [m|];
       [destruct (String.eqb_spec m "") as [Hm|Hm]; cbn [negb]|]|];
      try (cbn [ending_of page_of store st_file_upload_key];
           split; [discriminate|]; intros _;
           destruct (st_file_upload_key p); [left | right; split];
           reflexivity).
    pose proof (send_message_active m (uploaded i) e w1 Ha) as Heq.
    cbn zeta in Heq.
    assert (Hin : In (HttpPost (turn_request w1 m (uploaded i)))
                     (log (snd (send_message m (uploaded i) e w1)))).
    { rewrite Heq.
      destruct (host e _) as [resp|y];
        [destruct (status_code resp =? 200)%Z;
         [destruct (json_body resp) as [events|];
          [destruct (parse_response events) as [a|y];
           [destruct (Py.truthy a)|]|]|]|];
        cbn [snd submitted push_message emit log];
        rewrite ?in_app_iff; cbn [In]; tauto. }
    destruct (send_message m (uploaded i) e w1) as [[b|y] w2];
      cbn [snd] in Hin;
      cbn [ending_of page_of log_of store st_file_upload_key].
    + split; [intros _ | intros H; exfalso; apply H; reflexivity].
      split; [reflexivity|]. exists m. split; [reflexivity|].
      split; [exact Hm|].
      exists (turn_request w1 m (uploaded i)). split; [reflexivity | exact Hin].
    + split; [discriminate|]. intros _.
      destruct (st_file_upload_key p); [left | right; split]; reflexivity.
  - cbn [ending_of page_of store st_file_upload_key].
    split; [discriminate | intros _; left; reflexivity].
Qed.

(** X16. When a click on the sidebar button meets a host that cannot be
    reached, the run stops there: the page ends with the button, the
    history and the chat input are not drawn, the session and the
    history are kept and the uploader key is not touched. *)
Theorem unreachable_host_stops_the_page
        (i : inputs) (e : env) (p : page) (l : list effect) (x : exn) :
  clicked i = true ->
  host e (session_request (init_state i p l) (clock e)) = Raised x ->
  ending_of (script i e p l) = Stopped x
  /\ shown (script i e p l)
     = PageConfig :: Title :: sidebar_head (init_state i p l)
  /\ st_session_id (page_of (script i e p l))
     = Some (session_id (init_state i p l))
  /\ st_messages (page_of (script i e p l))
     = Some (messages (init_state i p l))
  /\ st_file_upload_key (page_of (script i e p l)) = st_file_upload_key p
  /\ log_of (script i e p l)
     = l ++ [HttpPost (session_request (init_state i p l) (clock e))].
Proof.
  intros Hc Hh. unfold script, sidebar. cbn zeta. rewrite Hc.
  rewrite create_session_eq. cbn zeta. rewrite Hh.
  cbn [ending_of shown page_of log_of store st_session_id st_messages
       st_file_upload_key emit session_id messages log init_state].
  repeat split.
Qed.

Lemma unreachable_host_stops_the_page_witness :
  clicked clicking = true
  /\ host (unreachable 1751328060)
          (session_request (init_state clicking sample_page []) 1751328060)
     = Raised ConnectionError
  /\ shown (script clicking (unreachable 1751328060) sample_page [])
     = [PageConfig; Title; Header;
        Success "Session ID: session-1751328000"; StartNewButton].
Proof.
  split; [reflexivity|]. split; [reflexivity|].
  apply (unreachable_host_stops_the_page clicking (unreachable 1751328060)
           sample_page [] ConnectionError);
    reflexivity.
Defined.

Lemma uploader_key_changes_at_rerun_witness :
  ending_of (script (submitting "what is this?" None)
               (answering 1751328060 server_error) sample_page [])
  = Rerun
  /\ st_file_upload_key
       (page_of (script (submitting "what is this?" None)
                   (answering 1751328060 server_error) sample_page []))
     = Some "key-2".
Proof.
  assert (H : ending_of (script (submitting "what is this?" None)
                           (answering 1751328060 server_error)
                           sample_page []) = Rerun) by reflexivity.
  split; [exact H|].
  apply (uploader_key_changes_at_rerun (submitting "what is this?" None)
           (answering 1751328060 server_error) sample_page []).
  exact H.
Defined.




(** X18. When the sidebar button is clicked and the host accepts the
    session, the same run already stores the new session id and an empty
    history and offers the chat input, but its sidebar was drawn before
    the call: it shows the id of the session that was replaced, or no id
    when there was none, and never the new one. *)
Theorem click_shows_the_replaced_session
        (i : inputs) (e : env) (p : page) (l : list effect)
        (resp : response) :
  clicked i = true ->
  chat_text i = None ->
  host e (session_request (init_state i p l) (clock e)) = Return resp ->
  status_code resp = 200%Z ->
  ending_of (script i e p l) = Finished
  /\ st_session_id (page_of (script i e p l))
     = Some (Some (session_name (clock e)))
  /\ st_messages (page_of (script i e p l)) = Some []
  /\ shown (script i e p l)
     = PageConfig :: Title
         :: sidebar_head (init_state i p l)
         ++ [Divider; Caption; Subheader; ChatInput;
             FileUploader (match st_file_upload_key p with
                           | Some k => k
                           | None => uuid_key i
                           end)]
  /\ (active (init_state i p l) = false ->
      sidebar_head (init_state i p l) = [Header; CreateButton])
  /\ (forall sid,
         session_id (init_state i p l) = Some sid ->
         sid <> "" ->
         sidebar_head (init_state i p l)
         = [Header; Success ("Session ID: " ++ sid); StartNewButton]).
Proof.
  intros Hc Ht Hh Hs. unfold script, sidebar. cbn zeta. rewrite Hc.
  rewrite create_session_eq. cbn zeta. rewrite Hh, Hs.
  cbn [Z.eqb Pos.eqb]. unfold input_section.
  cbn [clear_messages assign_session emit session_id messages].
  rewrite session_name_truthy, Ht.
  cbn [ending_of shown page_of store st_session_id st_messages
       session_id messages chat_history flat_map].
  split; [reflexivity|]. split; [reflexivity|]. split; [reflexivity|].
  split; [rewrite <- app_assoc; reflexivity|].
  unfold active, sidebar_head. split.
  - destruct (session_id (init_state i p l)) as [sid|]; [|reflexivity].
    cbn [Py.truthy_str]. intros ->. reflexivity.
  - intros sid -> Hne.
    destruct (String.eqb_spec sid ""); [contradiction | reflexivity].
Qed.

Lemma click_shows_the_replaced_session_witness :
  clicked clicking = true
  /\ chat_text clicking = None
  /\ status_code (ok_with JNull) = 200%Z
  /\ st_session_id
       (page_of (script clicking (answering 1751328060 (ok_with JNull))
                   sample_page []))
     = Some (Some "session-1751328060")
  /\ shown (script clicking (answering 1751328060 (ok_with JNull))
              sample_page [])
     = [PageConfig; Title; Header;
        Success "Session ID: session-1751328000"; StartNewButton;
        Divider; Caption; Subheader; ChatInput; FileUploader "key-1"].
Proof.
  split; [reflexivity|]. split; [reflexivity|]. split; [reflexivity|].
  destruct (click_shows_the_replaced_session clicking
              (answering 1751328060 (ok_with JNull)) sample_page []
              (ok_with JNull))
    as (_ & Hsid & _ & Hshown & _);
    [reflexivity | reflexivity | reflexivity | reflexivity |].
  split; [exact Hsid | exact Hshown].
Defined.

(** X19. A file of zero bytes is sent but not drawn: [send_message] adds
    the inline-data part, with an empty data string, and stores the
    empty bytes in the user's turn, and the history loop then draws that
    turn without an image, as it draws a turn sent without a file. *)
Theorem empty_file_is_sent_but_not_drawn
        (m : string) (f : uploaded_file) (e : env) (w : world) :
  active w = true ->
  file_bytes f = [] ->
  (exists rq ext,
      posts (log (snd (send_message m (Some f) e w))) = posts (log w) ++ [rq]
      /\ payload_parts (data rq)
         = Return (JArr [text_part m; inline_data_part ""])
      /\ messages (snd (send_message m (Some f) e w))
         = messages w ++ UserTurn m (Some []) :: ext)
  /\ render_turn (UserTurn m (Some [])) = render_turn (UserTurn m None)
  /\ render_turn (UserTurn m (Some [])) = [ChatMessage "user"; Write (JStr m)].
Proof.
  intros Ha Hf. split; [|split; reflexivity].
  exists (turn_request w m (Some f)).
  rewrite (send_message_posts m (Some f) e w Ha).
  rewrite (send_message_active m (Some f) e w Ha). cbn zeta.
  unfold turn_request, turn_parts, submitted, user_turn, read.
  rewrite Hf. cbn [option_map Base64.b64encode Base64.encode string_of_list_ascii].
  destruct (host e _) as [resp|x];
    [destruct (status_code resp =? 200)%Z;
     [destruct (json_body resp) as [events|];
      [destruct (parse_response events) as [a|x];
       [destruct (Py.truthy a)|]|]|]|];
    cbn [snd push_message emit messages];
    rewrite <- ?app_assoc, ?Hf; eexists; repeat split.
Qed.

Lemma empty_file_is_sent_but_not_drawn_witness :
  active sample_world = true
  /\ file_bytes empty_file = []
  /\ exists rq ext,
      posts (log (snd (send_message "see?" (Some empty_file)
                         (answering 1751328060 server_error) sample_world)))
      = posts (log sample_world) ++ [rq]
      /\ payload_parts (data rq)
         = Return (JArr [text_part "see?"; inline_data_part ""])
      /\ messages (snd (send_message "see?" (Some empty_file)
                          (answering 1751328060 server_error) sample_world))
         = messages sample_world ++ UserTurn "see?" (Some []) :: ext.
Proof.
  split; [reflexivity|]. split; [reflexivity|].
  apply (empty_file_is_sent_but_not_drawn "see?" empty_file
           (answering 1751328060 server_error) sample_world);
    reflexivity.
Defined.

End PageFacts.
